(** * The chat relay of [src/routes/v1/endpoints.py]

    A shallow embedding of the WebSocket relay: the connection manager, the
    in-memory session store, the two gateway functions, the keyword sentiment
    estimator, the per-connection receive loop and the two history routes,
    followed by the properties the specification states about them.

    Conventions of the model.
    - A Python [str] is a [string] whose characters stand for the code points
      U+0000..U+00FF, so that [len] is [String.length].
    - [json.loads] and [json.dumps] are library code: an inbound text is given
      by the value [json.loads] returns for it (or by the fact that it raises),
      and an outbound text by the value handed to [json.dumps].
    - [print] only writes to the log and is left out.
    - The provider, the clock and the transport are the environment: what they
      return or raise is an input of the model. *)

From Stdlib Require Import ZArith String Ascii List Floats.PrimFloat.
From stdpp Require Import base option list strings gmap.

Set Warnings "-register-all".

(** ** Text *)

Module Text.

(** [c.lower()] for a code point below 256: the ASCII capitals and the
    Latin-1 capitals (all of U+00C0..U+00DE but the multiplication sign) move
    up by 32, everything else is its own lower case. *)
Definition lower_char (c : ascii) : ascii :=
  let n := nat_of_ascii c in
  if (((65 <=? n) && (n <=? 90)) || ((192 <=? n) && (n <=? 222) && negb (n =? 215)))%nat
  then ascii_of_nat (n + 32)
  else c.

(** [text.lower()] *)
Fixpoint lower (text : string) : string :=
  match text with
  | EmptyString => EmptyString
  | String c rest => String (lower_char c) (lower rest)
  end.

(** [text.startswith(word)] *)
Fixpoint startswith (word text : string) : bool :=
  match word, text with
  | EmptyString, _ => true
  | String a word', String b text' => if Ascii.eqb a b then startswith word' text' else false
  | String _ _, EmptyString => false
  end.

(** [word in text]: [word] starts at some position of [text]. *)
Fixpoint contains (word text : string) : bool :=
  startswith word text ||
  match text with
  | EmptyString => false
  | String _ text' => contains word text'
  end.

(** Substring containment as a proposition, for the statements. *)
Definition Substring (word text : string) : Prop :=
  exists before after, text = before +:+ word +:+ after.

(** [sum(1 for word in words if word in text)] *)
Fixpoint count_contained (words : list string) (text : string) : nat :=
  match words with
  | [] => 0
  | word :: words' =>
      (if contains word text then 1 else 0) + count_contained words' text
  end.

(** The number of the [words] that are substrings of [text], as a
    relation over [Substring]. *)
Inductive Counted (text : string) : list string -> nat -> Prop :=
| counted_nil : Counted text [] 0
| counted_in word words k :
    Substring word text -> Counted text words k -> Counted text (word :: words) (S k)
| counted_out word words k :
    ~ Substring word text -> Counted text words k -> Counted text (word :: words) k.

(** [''.join(parts)] *)
Fixpoint join (parts : list string) : string :=
  match parts with
  | [] => ""
  | p :: parts' => p +:+ join parts'
  end.

End Text.

(** ** The sentiment estimator *)

Definition positive_words : list string :=
  ["happy"; "good"; "great"; "excellent"; "positive"; "wonderful"; "amazing"; "love"].

Definition negative_words : list string :=
  ["sad"; "bad"; "terrible"; "poor"; "negative"; "awful"; "hate"].

Definition estimate_sentiment (text : string) : string :=
  let text := Text.lower text in
  let positive_count := Text.count_contained positive_words text in
  let negative_count := Text.count_contained negative_words text in
  if (negative_count <? positive_count)%nat then "positive"
  else if (positive_count <? negative_count)%nat then "negative"
  else "neutral".

(** ** JSON values and Python dictionaries *)

(** The values [json.loads] produces and [json.dumps] consumes. *)
Inductive json : Type :=
| JNull
| JBool (b : bool)
| JInt (z : Z)
| JFloat (f : float)
| JStr (s : string)
| JList (items : list json)
| JDict (items : list (string * json)).

(** A Python [dict] keeps its keys in insertion order and holds one binding
    per key. *)
Module PyDict.
Section Dict.
Context {V : Type}.

(** [d.get(key)] as an option; [key in d] is [is_Some] of it. *)
Fixpoint get (key : string) (d : list (string * V)) : option V :=
  match d with
  | [] => None
  | (k, v) :: d' => if String.eqb k key then Some v else get key d'
  end.

(** [d[key] = v]: an existing key keeps its place, a new key goes last. *)
Fixpoint set (key : string) (v : V) (d : list (string * V)) : list (string * V) :=
  match d with
  | [] => [(key, v)]
  | (k, v') :: d' =>
      if String.eqb k key then (k, v) :: d' else (k, v') :: set key v d'
  end.

(** [del d[key]] for a key that may be absent. *)
Fixpoint del (key : string) (d : list (string * V)) : list (string * V) :=
  match d with
  | [] => []
  | (k, v) :: d' => if String.eqb k key then del key d' else (k, v) :: del key d'
  end.

(** [d.values()] *)
Definition values (d : list (string * V)) : list V := map snd d.
End Dict.
End PyDict.

(** Python truthiness of a JSON value, as [not x] sees it. *)
Definition truthy (j : json) : bool :=
  match j with
  | JNull => false
  | JBool b => b
  | JInt z => negb (z =? 0)%Z
  | JFloat f => negb (PrimFloat.eqb f 0%float)
  | JStr s => negb (String.eqb s "")
  | JList items => match items with [] => false | _ => true end
  | JDict items => match items with [] => false | _ => true end
  end.

(** [j == word] for a string literal [word]. *)
Definition is_str (word : string) (j : json) : bool :=
  match j with
  | JStr s => String.eqb s word
  | _ => false
  end.


(** ** Exceptions and the world the handlers run in *)

(** The exceptions that occur in the module. [OtherError] stands for any
    further subclass of [Exception] the environment may raise (a provider or
    transport error), told apart by a tag. *)
Inductive exn : Type :=
| WebSocketDisconnect
| HTTPException (status_code : Z) (detail : string)
| KeyError (key : string)
| IndexError
| AttributeError
| JSONDecodeError
| ValidationError
| OtherError (tag : string).

(** [class Message(BaseModel)] *)
Record Message : Type := mkMessage { role : string; content : string }.

(** [class ChatSession(BaseModel)] *)
Record ChatSession : Type := mkChatSession { id : string; messages : list Message }.

(** A [WebSocket] object is known by its identity. *)
Definition WebSocket : Type := nat.

(** The module's two globals and the transport behind the sockets.
    - [active_connections] is [manager.active_connections], a [dict] in
      insertion order;
    - [chat_sessions] is the global of that name;
    - [faults] tells when [send_text] raises: socket [ws] bound to [(n, e)]
      accepts [n] more texts and then raises [e]; an unbound socket never fails;
    - [sent] lists, oldest first, every text a [send_text] call delivered,
      with the socket it went to. *)
Record World : Type := mkWorld {
  active_connections : list (string * WebSocket);
  chat_sessions : gmap string ChatSession;
  faults : gmap WebSocket (nat * exn);
  sent : list (WebSocket * json)
}.

Definition with_connections (f : list (string * WebSocket) -> list (string * WebSocket))
    (w : World) : World :=
  mkWorld (f (active_connections w)) (chat_sessions w) (faults w) (sent w).

Definition with_sessions (f : gmap string ChatSession -> gmap string ChatSession)
    (w : World) : World :=
  mkWorld (active_connections w) (f (chat_sessions w)) (faults w) (sent w).

(** What a call leaves behind: a value, or a raised exception. *)
Inductive outcome (A : Type) : Type :=
| Return (a : A)
| Raised (e : exn).
Arguments Return {A} a.
Arguments Raised {A} e.

(** A computation reads and updates the world and returns or raises; the
    updates made before a [raise] stay. *)
Definition M (A : Type) : Type := World -> World * outcome A.

Definition ret {A} (a : A) : M A := fun w => (w, Return a).
Definition raise {A} (e : exn) : M A := fun w => (w, Raised e).

Definition bind {A B} (m : M A) (k : A -> M B) : M B :=
  fun w =>
    match m w with
    | (w', Return a) => k a w'
    | (w', Raised e) => (w', Raised e)
    end.

(** [try: body except Exception as e: handler(e)] *)
Definition try_except {A} (body : M A) (handler : exn -> M A) : M A :=
  fun w =>
    match body w with
    | (w', Return a) => (w', Return a)
    | (w', Raised e) => handler e w'
    end.

Definition modify (f : World -> World) : M unit := fun w => (f w, Return tt).
Definition gets {A} (f : World -> A) : M A := fun w => (w, Return (f w)).

Declare Scope py_scope.
Delimit Scope py_scope with py.
Notation "x <- m ;; k" := (bind m (fun x => k))
  (at level 100, m at next level, right associativity) : py_scope.
Notation "m ;; k" := (bind m (fun _ => k))
  (at level 100, right associativity) : py_scope.
Local Open Scope py_scope.

(** [await websocket.send_text(message)] *)
Definition send_text (websocket : WebSocket) (message : json) : M unit :=
  fun w =>
    match faults w !! websocket with
    | None =>
        (mkWorld (active_connections w) (chat_sessions w) (faults w)
                 (sent w ++ [(websocket, message)]), Return tt)
    | Some (O, e) => (w, Raised e)
    | Some (S n, e) =>
        (mkWorld (active_connections w) (chat_sessions w)
                 (<[websocket := (n, e)]> (faults w))
                 (sent w ++ [(websocket, message)]), Return tt)
    end.

(** ** [class ConnectionManager] *)

Module ConnectionManager.

(** [connect]: the handshake is the transport's business and is taken to
    succeed; the socket then takes the place of any socket registered under
    the same identifier. *)
Definition connect (websocket : WebSocket) (client_id : string) : M unit :=
  modify (with_connections (PyDict.set client_id websocket)).

Definition disconnect (client_id : string) : M unit :=
  in_dict <- gets (fun w => PyDict.get client_id (active_connections w)) ;;
  match in_dict with
  | Some _ => modify (with_connections (PyDict.del client_id))
  | None => ret tt
  end.

Definition send_message (message : json) (client_id : string) : M unit :=
  in_dict <- gets (fun w => PyDict.get client_id (active_connections w)) ;;
  match in_dict with
  | Some websocket => send_text websocket message
  | None => ret tt
  end.

(** The [for] loop of [broadcast] over [active_connections.values()]. *)
Fixpoint broadcast_loop (connections : list WebSocket) (message : json) : M unit :=
  match connections with
  | [] => ret tt
  | connection :: rest =>
      send_text connection message ;; broadcast_loop rest message
  end.

Definition broadcast (message : json) : M unit :=
  connections <- gets (fun w => PyDict.values (active_connections w)) ;;
  broadcast_loop connections message.

End ConnectionManager.

(** ** The environment of one request *)

(** What [client.chat.completions.create(...)] does without [stream]: it
    returns a response, given by the [message.content] of each of its choices
    (an [Optional[str]]), or it raises. *)
Inductive Completion : Type :=
| Choices (contents : list (option string))
| CreateRaises (e : exn).

(** What it does with [stream=True]: the chunks arrive in order, each given
    by the [delta.content] of its choices, and then the provider signals
    completion ([breaks = None]) or the iteration raises. A call that raises
    before any chunk is the stream with no chunk that breaks. *)
Record Stream : Type := mkStream {
  chunks : list (list (option string));
  breaks : option exn
}.

(** What [await websocket.receive_text()] followed by [json.loads] gives:
    [receive_text] raises, or it returns a text on which [json.loads] raises
    ([Text None]) or returns a value. *)
Inductive Inbound : Type :=
| ReceiveRaises (e : exn)
| Text (parsed : option json).

(** One round of the receive loop as the environment plays it: the inbound
    frame, the provider's behaviour on the request it is sent, and the two
    readings of [time.time()]. *)
Record Turn : Type := mkTurn {
  inbound : Inbound;
  create : list json -> Completion;
  create_stream : list json -> Stream;
  time_start : float;
  time_end : float
}.

(** An asynchronous generator that has been started: it is exhausted, or it
    yields a value and goes on, or it raises. *)
Inductive Generator : Type :=
| Exhausted
| Yield (chunk : string) (next : Generator)
| Throws (e : exn).

(** The state of the connection's coroutine. *)
Inductive ConnState : Type :=
| Open      (* suspended in [receive_text], waiting for the next frame *)
| Closed.   (* the coroutine has returned *)

Definition lift {A} (o : outcome A) : M A := fun w => (w, o).

(** [{"role": m.role, "content": m.content}] *)
Definition openai_message (m : Message) : json :=
  JDict [("role", JStr (role m)); ("content", JStr (content m))].

(** [message_data.get(key, dflt)]; only a [dict] has [get]. *)
Definition json_get (message_data : json) (key : string) (dflt : json) : M json :=
  match message_data with
  | JDict d => ret (default dflt (PyDict.get key d))
  | _ => raise AttributeError
  end.

(** [chat_sessions[client_id]] *)
Definition session (client_id : string) : M ChatSession :=
  fun w =>
    match chat_sessions w !! client_id with
    | Some s => (w, Return s)
    | None => (w, Raised (KeyError client_id))
    end.

Section Relay.

(** [str(e)], which the libraries that define the exceptions decide. *)
Variable str : exn -> string.

(** How the [content: str] field of [Message] validates a value that is
    neither a string nor [None]: the string it is coerced to, if any. *)
Variable coerce : json -> option string.

(** [Message(role=role, content=content)] *)
Definition new_Message (role : string) (content : json) : M Message :=
  match content with
  | JStr s => ret (mkMessage role s)
  | JNull => raise ValidationError
  | other =>
      match coerce other with
      | Some s => ret (mkMessage role s)
      | None => raise ValidationError
      end
  end.

(** [chat_sessions[client_id].messages.append(Message(role=role, content=content))]:
    the session is looked up, the message built, and the list extended in
    place. *)
Definition append_message (client_id role : string) (content : json) : M unit :=
  s <- session client_id ;;
  m <- new_Message role content ;;
  modify (with_sessions (insert client_id (mkChatSession (id s) (messages s ++ [m])))).

Definition get_ai_response (create : list json -> Completion) (messages : list Message)
    : outcome (option string) :=
  let openai_messages := map openai_message messages in
  match create openai_messages with
  | Choices (content :: _) => Return content
  | Choices [] =>
      Raised (HTTPException 500 ("Error calling AI service: " +:+ str IndexError))
  | CreateRaises e =>
      Raised (HTTPException 500 ("Error calling AI service: " +:+ str e))
  end.

(** The [async for chunk in stream] loop of [stream_ai_response], inside
    its [try]. *)
Fixpoint relay_chunks (chunks : list (list (option string))) (breaks : option exn)
    : Generator :=
  match chunks with
  | [] =>
      match breaks with
      | None => Exhausted
      | Some e =>
          Throws (HTTPException 500 ("Error streaming from AI service: " +:+ str e))
      end
  | chunk :: rest =>
      match chunk with
      | Some content :: _ => Yield content (relay_chunks rest breaks)
      | _ => relay_chunks rest breaks
      end
  end.

Definition stream_ai_response (create_stream : list json -> Stream)
    (messages : list Message) : Generator :=
  let openai_messages := map openai_message messages in
  let stream := create_stream openai_messages in
  relay_chunks (chunks stream) (breaks stream).

(** The [async for chunk in stream_ai_response(...)] loop of the handler;
    it returns [complete_response]. *)
Fixpoint stream_loop (client_id : string) (g : Generator) (complete_response : string)
    : M string :=
  match g with
  | Exhausted => ret complete_response
  | Throws e => raise e
  | Yield chunk next =>
      let chunk_data := JDict [("type", JStr "stream"); ("content", JStr chunk)] in
      ConnectionManager.send_message chunk_data client_id ;;
      stream_loop client_id next (complete_response +:+ chunk)
  end.

(** [{"response_time": ..., "length": len(text), "sentiment": estimate_sentiment(text)}] *)
Definition metadata (response_time : float) (text : string) : json :=
  JDict [("response_time", JFloat response_time);
         ("length", JInt (Z.of_nat (String.length text)));
         ("sentiment", JStr (estimate_sentiment text))].

(** The branch [message_data.get("type") == "message"] (lines 71-143). *)
Definition on_message (client_id : string) (message_data : json) (t : Turn) : M unit :=
  user_message <- json_get message_data "content" (JStr "") ;;
  append_message client_id "user" user_message ;;
  let start_time := time_start t in
  try_except
    (stream <- json_get message_data "stream" (JBool false) ;;
     if negb (truthy stream) then
       s <- session client_id ;;
       response <- lift (get_ai_response (create t) (messages s)) ;;
       let response_time := (time_end t - start_time)%float in
       match response with
       | Some response =>
           append_message client_id "assistant" (JStr response) ;;
           let response_data :=
             JDict [("type", JStr "message");
                    ("content", JStr response);
                    ("metadata", metadata response_time response)] in
           ConnectionManager.send_message response_data client_id
       | None => append_message client_id "assistant" JNull
       end
     else
       s <- session client_id ;;
       complete_response <-
         stream_loop client_id (stream_ai_response (create_stream t) (messages s)) "" ;;
       append_message client_id "assistant" (JStr complete_response) ;;
       let response_time := (time_end t - start_time)%float in
       let complete_data :=
         JDict [("type", JStr "stream_complete");
                ("metadata", metadata response_time complete_response)] in
       ConnectionManager.send_message complete_data client_id)
    (fun e =>
       let error_data :=
         JDict [("type", JStr "error"); ("content", JStr ("Error: " +:+ str e))] in
       ConnectionManager.send_message error_data client_id).

(** The dispatch on [message_data.get("type")] (lines 70-157). *)
Definition dispatch (client_id : string) (message_data : json) (t : Turn) : M unit :=
  type <- json_get message_data "type" JNull ;;
  if is_str "message" type then on_message client_id message_data t
  else if is_str "feedback" type then
    ConnectionManager.send_message (JDict [("type", JStr "feedback_received")]) client_id
  else ret tt.

(** [data = await websocket.receive_text(); message_data = json.loads(data)] *)
Definition receive (t : Turn) : M json :=
  match inbound t with
  | ReceiveRaises e => raise e
  | Text None => raise JSONDecodeError
  | Text (Some message_data) => ret message_data
  end.

(** One round of [while True] (lines 66-157). *)
Definition round (client_id : string) (t : Turn) : M unit :=
  message_data <- receive t ;;
  dispatch client_id message_data t.

(** [while True] over the rounds the environment plays. The loop only
    leaves by an exception; when the rounds are used up the coroutine is
    suspended in [receive_text]. *)
Fixpoint while_True (client_id : string) (turns : list Turn) : M ConnState :=
  match turns with
  | [] => ret Open
  | t :: rest => round client_id t ;; while_True client_id rest
  end.

(** The [try] statement of the endpoint (lines 64-163): both [except]
    clauses unregister the client, and the coroutine returns. *)
Definition serve (client_id : string) (turns : list Turn) : M ConnState :=
  try_except (while_True client_id turns)
    (fun e =>
       match e with
       | WebSocketDisconnect => ConnectionManager.disconnect client_id ;; ret Closed
       | _ => ConnectionManager.disconnect client_id ;; ret Closed
       end).

Definition websocket_endpoint (websocket : WebSocket) (client_id : string)
    (turns : list Turn) : M ConnState :=
  ConnectionManager.connect websocket client_id ;;
  known <- gets (fun w => chat_sessions w !! client_id) ;;
  (match known with
   | None => modify (with_sessions (insert client_id (mkChatSession client_id [])))
   | Some _ => ret tt
   end) ;;
  serve client_id turns.

End Relay.

(** ** The history routes *)

Definition get_chat_history (client_id : string) : M ChatSession :=
  known <- gets (fun w => chat_sessions w !! client_id) ;;
  match known with
  | None => raise (HTTPException 404 "Chat session not found")
  | Some _ => session client_id
  end.

Definition delete_chat_session (client_id : string) : M json :=
  known <- gets (fun w => chat_sessions w !! client_id) ;;
  (match known with
   | Some _ => modify (with_sessions (delete client_id))
   | None => ret tt
   end) ;;
  ret (JDict [("status", JStr "success"); ("message", JStr "Chat session deleted")]).

(** The process starts with no connection and no session. *)
Definition boot (faults : gmap WebSocket (nat * exn)) : World := mkWorld [] ∅ faults [].

(** ** Notions used in the statements *)

(** The values a started generator yields, in order, and the exception it
    ends with, if it does not end by exhaustion. *)
Fixpoint yielded (g : Generator) : list string :=
  match g with
  | Yield chunk next => chunk :: yielded next
  | _ => []
  end.

Fixpoint thrown (g : Generator) : option exn :=
  match g with
  | Exhausted => None
  | Throws e => Some e
  | Yield _ next => thrown next
  end.

(** The text a provider chunk contributes: the [delta.content] of its first
    choice, when there is a first choice and its content is not [None]. *)
Definition first_content (chunk : list (option string)) : option string :=
  match chunk with
  | Some content :: _ => Some content
  | _ => None
  end.

(** The outbound frames, as the handler builds them. *)
Definition stream_frame (chunk : string) : json :=
  JDict [("type", JStr "stream"); ("content", JStr chunk)].

Definition error_frame (text : string) : json :=
  JDict [("type", JStr "error"); ("content", JStr text)].

Definition message_frame (response_time : float) (response : string) : json :=
  JDict [("type", JStr "message");
         ("content", JStr response);
         ("metadata", metadata response_time response)].

Definition stream_complete_frame (response_time : float) (complete_response : string) : json :=
  JDict [("type", JStr "stream_complete");
         ("metadata", metadata response_time complete_response)].

(** [frames], each addressed to [websocket]. *)
Definition to_socket (websocket : WebSocket) (frames : list json) : list (WebSocket * json) :=
  map (pair websocket) frames.

(** The inbound frame of turn [t] is a dictionary with [type] "message",
    with text [user_message] as its [content] (or no [content] and
    [user_message] empty), and a [stream] entry whose truth value is
    [streaming] ([False] when absent). *)
Definition message_request (t : Turn) (user_message : string) (streaming : bool) : Prop :=
  exists d,
    inbound t = Text (Some (JDict d)) /\
    PyDict.get "type" d = Some (JStr "message") /\
    default (JStr "") (PyDict.get "content" d) = JStr user_message /\
    truthy (default (JBool false) (PyDict.get "stream" d)) = streaming.

(** The connection of [client_id] is open in [w]: the client is registered
    with socket [websocket], the transport of that socket does not fail, and
    the client's session is [s]. *)
Definition connected (w : World) (client_id : string) (websocket : WebSocket)
    (s : ChatSession) : Prop :=
  PyDict.get client_id (active_connections w) = Some websocket /\
  faults w !! websocket = None /\
  chat_sessions w !! client_id = Some s.

(** [w'] is [w] with [ms] appended to the session of [client_id] and
    [frames] delivered to [websocket]. *)
Definition advance (client_id : string) (s : ChatSession) (ms : list Message)
    (websocket : WebSocket) (frames : list json) (w : World) : World :=
  mkWorld (active_connections w)
          (<[client_id := mkChatSession (id s) (messages s ++ ms)]> (chat_sessions w))
          (faults w)
          (sent w ++ to_socket websocket frames).

(** What a computation run on behalf of [client_id] may change: it leaves
    the registry alone, only adds to the texts sent, leaves the sessions of
    other clients alone, creates and deletes no session, and only appends to
    the messages of the client's session. *)
Definition grows (client_id : string) (w w' : World) : Prop :=
  active_connections w' = active_connections w /\
  sent w `prefix_of` sent w' /\
  (forall k, k <> client_id -> chat_sessions w' !! k = chat_sessions w !! k) /\
  match chat_sessions w !! client_id with
  | None => chat_sessions w' !! client_id = None
  | Some s =>
      exists s', chat_sessions w' !! client_id = Some s' /\
                 id s' = id s /\ messages s `prefix_of` messages s'
  end.

(** The gateway call of turn [t] on [history] fails with exception [e]:
    in atomic mode [get_ai_response] raises it, with no fragment produced; in
    streaming mode the generator raises it after yielding [fragments]. *)
Inductive gateway_fails (str : exn -> string) (t : Turn) (history : list Message)
    : bool -> list string -> exn -> Prop :=
| atomic_fails e :
    get_ai_response str (create t) history = Raised e ->
    gateway_fails str t history false [] e
| stream_fails e :
    thrown (stream_ai_response str (create_stream t) history) = Some e ->
    gateway_fails str t history true
      (yielded (stream_ai_response str (create_stream t) history)) e.

(** [frame["type"] == kind] for an outbound frame. *)
Definition has_type (kind : string) (frame : json) : bool :=
  match frame with
  | JDict d => match PyDict.get "type" d with Some type => is_str kind type | None => false end
  | _ => false
  end.

(** The [content] of every frame of type "stream" among [frames], in order:
    what a client collects from a streamed answer. *)
Fixpoint stream_contents (frames : list json) : list string :=
  match frames with
  | [] => []
  | frame :: rest =>
      match frame with
      | JDict d =>
          match PyDict.get "content" d with
          | Some (JStr chunk) =>
              if has_type "stream" frame then chunk :: stream_contents rest
              else stream_contents rest
          | _ => stream_contents rest
          end
      | _ => stream_contents rest
      end
  end.

(** A computation keeps relation [R] when the world it leaves is related by
    [R] to the world it started in, whatever it returns or raises. *)
Definition keeps {A} (R : World -> World -> Prop) (m : M A) : Prop :=
  forall w, R w (m w).1.

(** Only the transport moved between [w] and [w']: registry and sessions
    are the same and texts were only added. *)
Definition transport_only (w w' : World) : Prop :=
  active_connections w' = active_connections w /\
  chat_sessions w' = chat_sessions w /\
  sent w `prefix_of` sent w'.

(** ** Sample inputs *)

(** A [str] for the samples: the text an exception was built with. *)
Definition sample_str (e : exn) : string :=
  match e with
  | HTTPException _ detail => detail
  | OtherError tag => tag
  | KeyError key => key
  | _ => "error"
  end.

(** A validation that coerces nothing. *)
Definition sample_coerce (content : json) : option string := None.

(** Client "abc" is connected with socket 1 and has said nothing yet. *)
Definition sample_world : World :=
  mkWorld [("abc", 1)] {["abc" := mkChatSession "abc" []]} ∅ [].

(** The client says "hello", asking for a streamed answer or not; the
    provider answers as given, and the clock reads 1.0 and then 3.0. *)
Definition sample_turn (streaming : bool) (completion : Completion) (stream : Stream)
    : Turn :=
  mkTurn (Text (Some (JDict [("type", JStr "message");
                             ("content", JStr "hello");
                             ("stream", JBool streaming)])))
         (fun _ => completion) (fun _ => stream) 1%float 3%float.

(** Three clients, the second of which has a dead transport. *)
Definition sample_crowd : World :=
  mkWorld [("a", 1); ("b", 2); ("c", 3)] ∅ {[2 := (0, WebSocketDisconnect)]} [].

(** ** Further notions *)

(** Between [w] and [w'] the registry did not change and every text sent
    went to the socket registered for [client_id]. *)
Definition addressed (client_id : string) (w w' : World) : Prop :=
  active_connections w' = active_connections w /\
  exists new,
    sent w' = sent w ++ new /\
    Forall (fun p => PyDict.get client_id (active_connections w) = Some p.1) new.

(** Starting from [history], each of the [turns] is a "message" frame that
    the gateway answers: in atomic mode with a text, in streaming mode with a
    stream that completes. [recorded] lists the messages the turns add to the
    history and [frames] the frames they are answered with, both in order. *)
Inductive answered (str : exn -> string)
    : list Message -> list Turn -> list Message -> list json -> Prop :=
| answered_none history : answered str history [] [] []
| answered_atomic history t user_message response turns recorded frames :
    message_request t user_message false ->
    get_ai_response str (create t) (history ++ [mkMessage "user" user_message]) =
      Return (Some response) ->
    answered str
      (history ++ [mkMessage "user" user_message; mkMessage "assistant" response])
      turns recorded frames ->
    answered str history (t :: turns)
      (mkMessage "user" user_message :: mkMessage "assistant" response :: recorded)
      (message_frame (time_end t - time_start t) response :: frames)
| answered_stream history t user_message turns recorded frames :
    message_request t user_message true ->
    let g := stream_ai_response str (create_stream t)
               (history ++ [mkMessage "user" user_message]) in
    thrown g = None ->
    answered str
      (history ++ [mkMessage "user" user_message;
                   mkMessage "assistant" (Text.join (yielded g))])
      turns recorded frames ->
    answered str history (t :: turns)
      (mkMessage "user" user_message :: mkMessage "assistant" (Text.join (yielded g))
         :: recorded)
      (map stream_frame (yielded g) ++
       stream_complete_frame (time_end t - time_start t) (Text.join (yielded g))
         :: frames).

(** Further samples: a client with a session and no registration, and the
    sample client behind a socket whose transport is dead. *)
Definition sample_unregistered : World :=
  mkWorld [] {["abc" := mkChatSession "abc" []]} ∅ [].

Definition sample_dead : World :=
  mkWorld [("abc", 1)] {["abc" := mkChatSession "abc" []]}
          {[1 := (0, WebSocketDisconnect)]} [].

(** A turn that delivers [received] and needs no provider. *)
Definition sample_inbound (received : Inbound) : Turn :=
  mkTurn received (fun _ => Choices []) (fun _ => mkStream [] None) 0%float 0%float.

(** Every session of the store carries the identifier it is stored under. *)
Definition well_keyed (w : World) : Prop :=
  forall k s, chat_sessions w !! k = Some s -> id s = k.

(** * Properties *)

(** ** Python dictionaries *)

Lemma get_del_eq {V} key (d : list (string * V)) :
  PyDict.get key (PyDict.del key d) = None.
Proof.
  induction d as [|[k v] d IH]; simpl; [done|].
  destruct (String.eqb_spec k key) as [->|Hne]; [done|].
  simpl. destruct (String.eqb_spec k key); [done|apply IH].
Qed.

Lemma get_del_ne {V} key key' (d : list (string * V)) :
  key <> key' -> PyDict.get key' (PyDict.del key d) = PyDict.get key' d.
Proof.
  intros Hne. induction d as [|[k v] d IH]; simpl; [done|].
  destruct (String.eqb_spec k key) as [->|Hk].
  - destruct (String.eqb_spec key key'); [done|apply IH].
  - simpl. by rewrite IH.
Qed.

Lemma get_set_eq {V} key (v : V) (d : list (string * V)) :
  PyDict.get key (PyDict.set key v d) = Some v.
Proof.
  induction d as [|[k v'] d IH]; simpl.
  - by rewrite String.eqb_refl.
  - destruct (String.eqb_spec k key) as [->|Hne]; simpl.
    + by rewrite String.eqb_refl.
    + destruct (String.eqb_spec k key); [done|apply IH].
Qed.

Lemma get_set_ne {V} key key' (v : V) (d : list (string * V)) :
  key <> key' -> PyDict.get key' (PyDict.set key v d) = PyDict.get key' d.
Proof.
  intros Hne. induction d as [|[k v'] d IH]; simpl.
  - destruct (String.eqb_spec key key'); done.
  - destruct (String.eqb_spec k key) as [->|Hk]; simpl.
    + destruct (String.eqb_spec key key'); done.
    + by rewrite IH.
Qed.

(** ** Text *)

Lemma append_assoc (a b c : string) : (a +:+ b) +:+ c = a +:+ b +:+ c.
Proof.
  induction a as [|x a IH]; [done|].
  change (String x ((a +:+ b) +:+ c) = String x (a +:+ b +:+ c)). by f_equal.
Qed.

Lemma append_empty_r (a : string) : a +:+ "" = a.
Proof.
  induction a as [|x a IH]; [done|].
  change (String x (a +:+ "") = String x a). by f_equal.
Qed.

Lemma startswith_iff word text :
  Text.startswith word text = true <-> exists after, text = word +:+ after.
Proof.
  revert text. induction word as [|a word IH]; intros text; simpl.
  - split; [intros _; by exists text | done].
  - destruct text as [|b text].
    + split; [done | intros [after H]; discriminate H].
    + destruct (Ascii.eqb_spec a b) as [->|Hne].
      * rewrite IH. split; intros [after H]; exists after.
        -- by rewrite H.
        -- by injection H.
      * split; [done | intros [after H]; injection H; congruence].
Qed.

Lemma contains_iff word text :
  Text.contains word text = true <-> Text.Substring word text.
Proof.
  split.
  - induction text as [|c text IH]; simpl; intros H.
    + rewrite orb_false_r in H. apply startswith_iff in H as [after ->].
      by exists "", after.
    + apply orb_true_iff in H as [H|H].
      * apply startswith_iff in H as [after ->]. by exists "", after.
      * destruct (IH H) as (before & after & ->). by exists (String c before), after.
  - intros (before & after & ->). induction before as [|c before IH]; simpl.
    + assert (H : Text.startswith word (word +:+ after) = true)
        by (apply startswith_iff; by exists after).
      destruct (word +:+ after); simpl in *; by rewrite H.
    + by rewrite IH, orb_true_r.
Qed.

Lemma count_contained_counted words text :
  Text.Counted text words (Text.count_contained words text).
Proof.
  induction words as [|word words IH]; simpl; [constructor|].
  destruct (Text.contains word text) eqn:H; simpl.
  - apply Text.counted_in; [by apply contains_iff | done].
  - apply Text.counted_out; [|done].
    intros Hsub. apply contains_iff in Hsub. congruence.
Qed.

Lemma Counted_unique text words k1 k2 :
  Text.Counted text words k1 -> Text.Counted text words k2 -> k1 = k2.
Proof.
  intros H1. revert k2. induction H1; intros k2 H2; inversion H2; subst;
    try done; auto.
Qed.

(** ** The sentiment estimator *)

(** C6: for every text there are the number [p] of positive terms and the
    number [n] of negative terms that are substrings of the lower-cased text
    (the two numbers are unique, [Counted_unique]), and the estimate is
    "positive" when [p > n], "negative" when [n > p] and "neutral" otherwise;
    the four sample texts of the specification get the estimates it lists. *)
Theorem estimate_sentiment_by_counts :
  (forall text, exists p n,
      Text.Counted (Text.lower text) positive_words p /\
      Text.Counted (Text.lower text) negative_words n /\
      estimate_sentiment text =
        if decide (n < p) then "positive"
        else if decide (p < n) then "negative"
        else "neutral") /\
  estimate_sentiment "I love this, it is wonderful" = "positive" /\
  estimate_sentiment "this is terrible and awful" = "negative" /\
  estimate_sentiment "the sky is blue" = "neutral" /\
  estimate_sentiment "LOVE" = "positive".
Proof.
  split; [|by vm_compute].
  intros text.
  exists (Text.count_contained positive_words (Text.lower text)),
         (Text.count_contained negative_words (Text.lower text)).
  split; [apply count_contained_counted|].
  split; [apply count_contained_counted|].
  unfold estimate_sentiment.
  repeat case_decide;
    repeat match goal with
           | |- context [(?a <? ?b)%nat] => destruct (Nat.ltb_spec a b)
           end; (done || lia).
Qed.

(** ** The connection manager *)

Lemma send_text_healthy websocket message w :
  faults w !! websocket = None ->
  send_text websocket message w =
    (mkWorld (active_connections w) (chat_sessions w) (faults w)
             (sent w ++ [(websocket, message)]), Return tt).
Proof. intros H. unfold send_text. by rewrite H. Qed.

Lemma send_text_broken websocket message w e :
  faults w !! websocket = Some (0, e) ->
  send_text websocket message w = (w, Raised e).
Proof. intros H. unfold send_text. by rewrite H. Qed.

Lemma send_message_connected message client_id websocket w :
  PyDict.get client_id (active_connections w) = Some websocket ->
  faults w !! websocket = None ->
  ConnectionManager.send_message message client_id w =
    (mkWorld (active_connections w) (chat_sessions w) (faults w)
             (sent w ++ [(websocket, message)]), Return tt).
Proof.
  intros Hreg Hok. unfold ConnectionManager.send_message, bind, gets.
  rewrite Hreg. by apply send_text_healthy.
Qed.

Lemma broadcast_loop_healthy connections message w :
  (forall websocket, websocket ∈ connections -> faults w !! websocket = None) ->
  ConnectionManager.broadcast_loop connections message w =
    (mkWorld (active_connections w) (chat_sessions w) (faults w)
             (sent w ++ map (fun websocket => (websocket, message)) connections),
     Return tt).
Proof.
  revert w. induction connections as [|c connections IH]; intros w Hok; simpl.
  - unfold ret. rewrite app_nil_r. by destruct w.
  - unfold bind. rewrite send_text_healthy by (apply Hok; left).
    rewrite IH; simpl.
    + by rewrite <- app_assoc.
    + intros websocket Hin. apply Hok. by right.
Qed.

Lemma broadcast_loop_app before after message w :
  ConnectionManager.broadcast_loop (before ++ after) message w =
    bind (ConnectionManager.broadcast_loop before message)
         (fun _ => ConnectionManager.broadcast_loop after message) w.
Proof.
  revert w. induction before as [|c before IH]; intros w; simpl; [done|].
  unfold bind. destruct (send_text c message w) as [w1 [[]|e]]; [|done].
  by rewrite IH.
Qed.

(** C5 (as the code has it): [broadcast] sends to the registered sockets in
    the registry's order and stops at the first send that raises. When the
    sockets registered before the failing one are healthy, exactly they have
    received the frame, the exception of the failing [send_text] leaves
    [broadcast], and no socket registered after it is sent anything. When no
    registered socket fails, every one of them receives the frame. *)
Theorem broadcast_stops_at_first_failure (message : json) (w : World) :
  (forall before client_id websocket after e,
      active_connections w = before ++ (client_id, websocket) :: after ->
      (forall ws, ws ∈ PyDict.values before -> faults w !! ws = None) ->
      faults w !! websocket = Some (0, e) ->
      ConnectionManager.broadcast message w =
        (mkWorld (active_connections w) (chat_sessions w) (faults w)
                 (sent w ++ map (fun ws => (ws, message)) (PyDict.values before)),
         Raised e)) /\
  ((forall ws, ws ∈ PyDict.values (active_connections w) -> faults w !! ws = None) ->
   ConnectionManager.broadcast message w =
     (mkWorld (active_connections w) (chat_sessions w) (faults w)
              (sent w ++ map (fun ws => (ws, message))
                             (PyDict.values (active_connections w))),
      Return tt)).
Proof.
  split.
  - intros before client_id websocket after e Hreg Hok Hbad.
    unfold ConnectionManager.broadcast, bind at 1, gets.
    rewrite Hreg. unfold PyDict.values. rewrite map_app. simpl.
    rewrite broadcast_loop_app. unfold bind at 1.
    rewrite broadcast_loop_healthy by exact Hok.
    simpl. unfold bind.
    rewrite send_text_broken with (e := e) by exact Hbad.
    simpl. by rewrite Hreg.
  - intros Hok. unfold ConnectionManager.broadcast, bind, gets.
    by apply broadcast_loop_healthy.
Qed.

(** ** The streaming gateway *)

Lemma yielded_relay_chunks str chunks breaks :
  yielded (relay_chunks str chunks breaks) = omap first_content chunks.
Proof.
  induction chunks as [|chunk chunks IH]; simpl.
  - by destruct breaks.
  - destruct chunk as [|[content|] choices]; simpl; by rewrite ?IH.
Qed.

Lemma thrown_relay_chunks str chunks breaks :
  thrown (relay_chunks str chunks breaks) =
    (fun e => HTTPException 500 ("Error streaming from AI service: " +:+ str e)) <$> breaks.
Proof.
  induction chunks as [|chunk chunks IH]; simpl.
  - by destruct breaks.
  - by destruct chunk as [|[content|] choices]; simpl.
Qed.

(** C4 (as the code has it): the generator yields, in the provider's order,
    the text of the first choice of each chunk that has a first choice whose
    content is not [None], and nothing else; such a text may be empty. It ends
    by exhaustion when the provider signals completion, and by raising the
    wrapped error when the provider fails, after the fragments of the chunks
    received until then. *)
Theorem stream_ai_response_yields (str : exn -> string)
    (create_stream : list json -> Stream) (messages : list Message) :
  let stream := create_stream (map openai_message messages) in
  yielded (stream_ai_response str create_stream messages) =
    omap first_content (chunks stream) /\
  thrown (stream_ai_response str create_stream messages) =
    (fun e => HTTPException 500 ("Error streaming from AI service: " +:+ str e))
      <$> breaks stream.
Proof.
  simpl. unfold stream_ai_response.
  by rewrite yielded_relay_chunks, thrown_relay_chunks.
Qed.

(** ** What a round may change *)

Lemma transport_only_refl w : transport_only w w.
Proof. by repeat split. Qed.

Lemma transport_only_trans w1 w2 w3 :
  transport_only w1 w2 -> transport_only w2 w3 -> transport_only w1 w3.
Proof.
  intros (Ha & Hs & Hp) (Ha' & Hs' & Hp'). repeat split; try congruence.
  by etrans.
Qed.

Lemma grows_refl client_id w : grows client_id w w.
Proof.
  repeat split; try done.
  destruct (chat_sessions w !! client_id) as [s|]; [|done]. by exists s.
Qed.

Lemma grows_trans client_id w1 w2 w3 :
  grows client_id w1 w2 -> grows client_id w2 w3 -> grows client_id w1 w3.
Proof.
  intros (Ha & Hp & Ho & Hs) (Ha' & Hp' & Ho' & Hs').
  split; [congruence|]. split; [by etrans|].
  split; [intros k Hk; rewrite Ho', Ho; done|].
  destruct (chat_sessions w1 !! client_id) as [s1|].
  - destruct Hs as (s2 & Hs2 & Hid & Hpre). rewrite Hs2 in Hs'.
    destruct Hs' as (s3 & Hs3 & Hid' & Hpre').
    exists s3. split; [done|]. split; [congruence|by etrans].
  - by rewrite Hs in Hs'.
Qed.

Lemma transport_only_grows client_id w w' :
  transport_only w w' -> grows client_id w w'.
Proof.
  intros (Ha & Hs & Hp). repeat split; try done.
  - intros k _. by rewrite Hs.
  - rewrite Hs. destruct (chat_sessions w !! client_id) as [s|]; [|done].
    by exists s.
Qed.

Section Keeps.

Context (R : World -> World -> Prop).
Hypothesis R_refl : forall w, R w w.
Hypothesis R_trans : forall w1 w2 w3, R w1 w2 -> R w2 w3 -> R w1 w3.

Lemma keeps_pure {A} (o : outcome A) : keeps R (lift o).
Proof. intros w. apply R_refl. Qed.

Lemma keeps_gets {A} (f : World -> A) : keeps R (gets f).
Proof. intros w. apply R_refl. Qed.

Lemma keeps_bind {A B} (m : M A) (k : A -> M B) :
  keeps R m -> (forall a, keeps R (k a)) -> keeps R (bind m k).
Proof.
  intros Hm Hk w. unfold bind. specialize (Hm w).
  destruct (m w) as [w' [a|e]]; simpl in *; [|done].
  eapply R_trans; [exact Hm|apply Hk].
Qed.

Lemma keeps_try_except {A} (body : M A) (handler : exn -> M A) :
  keeps R body -> (forall e, keeps R (handler e)) -> keeps R (try_except body handler).
Proof.
  intros Hm Hk w. unfold try_except. specialize (Hm w).
  destruct (body w) as [w' [a|e]]; simpl in *; [done|].
  eapply R_trans; [exact Hm|apply Hk].
Qed.

End Keeps.

Lemma keeps_weaken {A} (R R' : World -> World -> Prop) (m : M A) :
  (forall w w', R w w' -> R' w w') -> keeps R m -> keeps R' m.
Proof. intros HR Hm w. apply HR, Hm. Qed.

Lemma keeps_send_text websocket message :
  keeps transport_only (send_text websocket message).
Proof.
  intros w. unfold send_text.
  destruct (faults w !! websocket) as [[[|n] e]|]; simpl;
    repeat split; try done; by apply prefix_app_r.
Qed.

Lemma keeps_send_message message client_id :
  keeps transport_only (ConnectionManager.send_message message client_id).
Proof.
  unfold ConnectionManager.send_message.
  apply keeps_bind; [apply transport_only_trans|apply keeps_gets, transport_only_refl|].
  intros [websocket|]; [apply keeps_send_text|].
  apply (keeps_pure _ transport_only_refl (Return tt)).
Qed.

Lemma keeps_json_get R message_data key dflt :
  (forall w, R w w) -> keeps R (json_get message_data key dflt).
Proof. intros HR w. destruct message_data; apply HR. Qed.

Lemma keeps_session R client_id :
  (forall w, R w w) -> keeps R (session client_id).
Proof.
  intros HR w. unfold session. destruct (chat_sessions w !! client_id); apply HR.
Qed.

Lemma keeps_new_Message R coerce role content :
  (forall w, R w w) -> keeps R (new_Message coerce role content).
Proof.
  intros HR w. unfold new_Message.
  destruct content; try destruct (coerce _); apply HR.
Qed.

Lemma keeps_append_message coerce client_id role content :
  keeps (grows client_id) (append_message coerce client_id role content).
Proof.
  intros w. unfold append_message, session, bind.
  destruct (chat_sessions w !! client_id) as [s|] eqn:Hs; simpl;
    [|apply grows_refl].
  pose proof (keeps_new_Message (fun w w' => w' = w) coerce role content
                (fun _ => eq_refl) w) as Hw.
  destruct (new_Message coerce role content w) as [w' [m|e]]; simpl in *; subst w';
    [|apply grows_refl].
  repeat split; try done; simpl.
  - intros k Hk. by rewrite lookup_insert_ne.
  - rewrite Hs, lookup_insert_eq. eexists. split; [done|]. split; [done|].
    by apply prefix_app_r.
Qed.

Lemma keeps_stream_loop client_id g complete_response :
  keeps transport_only (stream_loop client_id g complete_response).
Proof.
  revert complete_response. induction g as [|chunk next IH|e]; intros acc; simpl.
  - apply (keeps_pure _ transport_only_refl (Return acc)).
  - apply keeps_bind; [apply transport_only_trans|apply keeps_send_message|].
    intros _. apply IH.
  - apply (keeps_pure _ transport_only_refl (Raised e)).
Qed.

Lemma keeps_on_message str coerce client_id message_data t :
  keeps (grows client_id) (on_message str coerce client_id message_data t).
Proof.
  pose proof (grows_refl client_id) as Hrefl.
  pose proof (grows_trans client_id) as Htrans.
  pose proof (fun A (m : M A) =>
                keeps_weaken transport_only (grows client_id) m
                  (transport_only_grows client_id)) as Hweak.
  unfold on_message.
  apply keeps_bind; [done|by apply keeps_json_get|]. intros user_message.
  apply keeps_bind; [done|apply keeps_append_message|]. intros _.
  apply keeps_try_except; [done| |intros e; apply Hweak, keeps_send_message].
  apply keeps_bind; [done|by apply keeps_json_get|]. intros stream.
  destruct (negb (truthy stream)).
  - apply keeps_bind; [done|by apply keeps_session|]. intros s.
    apply keeps_bind; [done|by apply keeps_pure|]. intros [response|].
    + apply keeps_bind; [done|apply keeps_append_message|]. intros _.
      apply Hweak, keeps_send_message.
    + apply keeps_append_message.
  - apply keeps_bind; [done|by apply keeps_session|]. intros s.
    apply keeps_bind; [done|apply Hweak, keeps_stream_loop|]. intros complete.
    apply keeps_bind; [done|apply keeps_append_message|]. intros _.
    apply Hweak, keeps_send_message.
Qed.

Lemma keeps_round str coerce client_id t :
  keeps (grows client_id) (round str coerce client_id t).
Proof.
  pose proof (grows_refl client_id) as Hrefl.
  pose proof (grows_trans client_id) as Htrans.
  unfold round. apply keeps_bind; [done| |].
  - intros w. unfold receive. destruct (inbound t) as [e|[j|]]; apply Hrefl.
  - intros message_data. unfold dispatch.
    apply keeps_bind; [done|by apply keeps_json_get|]. intros type.
    destruct (is_str "message" type); [apply keeps_on_message|].
    destruct (is_str "feedback" type).
    + eapply keeps_weaken; [apply transport_only_grows|apply keeps_send_message].
    + by apply (keeps_pure _ Hrefl (Return tt)).
Qed.

Lemma keeps_while_True str coerce client_id turns :
  keeps (grows client_id) (while_True str coerce client_id turns).
Proof.
  induction turns as [|t turns IH]; simpl.
  - apply (keeps_pure _ (grows_refl client_id) (Return Open)).
  - apply keeps_bind; [apply grows_trans|apply keeps_round|]. intros _. apply IH.
Qed.

(** ** Rounds on an open connection *)

Lemma bind_returns {A B} (m : M A) (k : A -> M B) w w' a :
  m w = (w', Return a) -> bind m k w = k a w'.
Proof. intros H. unfold bind. by rewrite H. Qed.

Lemma bind_raises {A B} (m : M A) (k : A -> M B) w w' e :
  m w = (w', Raised e) -> bind m k w = (w', Raised e).
Proof. intros H. unfold bind. by rewrite H. Qed.

Lemma try_returns {A} (body : M A) handler w w' a :
  body w = (w', Return a) -> try_except body handler w = (w', Return a).
Proof. intros H. unfold try_except. by rewrite H. Qed.

Lemma try_raises {A} (body : M A) handler w w' e :
  body w = (w', Raised e) -> try_except body handler w = handler e w'.
Proof. intros H. unfold try_except. by rewrite H. Qed.

Ltac returns_by tac := erewrite bind_returns by tac; cbv beta iota.
Ltac raises_by tac := erewrite bind_raises by tac; cbv beta iota.

Lemma json_get_dict d key dflt w :
  json_get (JDict d) key dflt w = (w, Return (default dflt (PyDict.get key d))).
Proof. reflexivity. Qed.

Lemma session_found client_id w s :
  chat_sessions w !! client_id = Some s -> session client_id w = (w, Return s).
Proof. intros H. unfold session. by rewrite H. Qed.

Lemma append_message_str coerce client_id role text w s :
  chat_sessions w !! client_id = Some s ->
  append_message coerce client_id role (JStr text) w =
    (with_sessions
       (insert client_id (mkChatSession (id s) (messages s ++ [mkMessage role text]))) w,
     Return tt).
Proof. intros H. unfold append_message, session, bind. by rewrite H. Qed.

Lemma append_message_None coerce client_id role w s :
  chat_sessions w !! client_id = Some s ->
  append_message coerce client_id role JNull w = (w, Raised ValidationError).
Proof. intros H. unfold append_message, session, bind. by rewrite H. Qed.

Lemma round_is_on_message str coerce client_id t d w :
  inbound t = Text (Some (JDict d)) ->
  PyDict.get "type" d = Some (JStr "message") ->
  round str coerce client_id t w = on_message str coerce client_id (JDict d) t w.
Proof.
  intros Hin Hty. unfold round, receive, dispatch, json_get, bind, ret.
  rewrite Hin, Hty. reflexivity.
Qed.

Lemma stream_loop_connected client_id websocket g complete_response w :
  PyDict.get client_id (active_connections w) = Some websocket ->
  faults w !! websocket = None ->
  stream_loop client_id g complete_response w =
    (mkWorld (active_connections w) (chat_sessions w) (faults w)
             (sent w ++ to_socket websocket (map stream_frame (yielded g))),
     match thrown g with
     | None => Return (complete_response +:+ Text.join (yielded g))
     | Some e => Raised e
     end).
Proof.
  revert complete_response w.
  induction g as [|chunk next IH|e]; intros acc w Hreg Hok; simpl.
  - unfold ret. rewrite app_nil_r, append_empty_r. by destruct w.
  - returns_by ltac:(by apply send_message_connected with (websocket := websocket)).
    rewrite IH by done. simpl. by rewrite <- app_assoc, append_assoc.
  - unfold raise. rewrite app_nil_r. by destruct w.
Qed.

Lemma round_atomic_returned str coerce client_id websocket s t user_message response w :
  connected w client_id websocket s ->
  message_request t user_message false ->
  get_ai_response str (create t) (messages s ++ [mkMessage "user" user_message]) =
    Return (Some response) ->
  round str coerce client_id t w =
    (advance client_id s
       [mkMessage "user" user_message; mkMessage "assistant" response]
       websocket [message_frame (time_end t - time_start t) response] w,
     Return tt).
Proof.
  intros (Hreg & Hok & Hs) (d & Hin & Hty & Hc & Hst) Hgw.
  rewrite (round_is_on_message _ _ _ _ _ _ Hin Hty). unfold on_message.
  returns_by ltac:(apply json_get_dict). rewrite Hc.
  returns_by ltac:(by apply append_message_str).
  erewrite try_returns; [reflexivity|].
  returns_by ltac:(apply json_get_dict).
  rewrite Hst. cbn [negb].
  returns_by ltac:(apply session_found; simpl; apply lookup_insert_eq).
  cbn [messages]. returns_by ltac:(unfold lift; by rewrite Hgw).
  returns_by ltac:(apply append_message_str; simpl; apply lookup_insert_eq).
  rewrite send_message_connected with (websocket := websocket) by done.
  unfold advance, with_sessions; simpl. rewrite insert_insert_eq.
  by rewrite <- app_assoc.
Qed.

Lemma round_atomic_raised str coerce client_id websocket s t user_message e w :
  connected w client_id websocket s ->
  message_request t user_message false ->
  get_ai_response str (create t) (messages s ++ [mkMessage "user" user_message]) =
    Raised e ->
  round str coerce client_id t w =
    (advance client_id s [mkMessage "user" user_message]
       websocket [error_frame ("Error: " +:+ str e)] w,
     Return tt).
Proof.
  intros (Hreg & Hok & Hs) (d & Hin & Hty & Hc & Hst) Hgw.
  rewrite (round_is_on_message _ _ _ _ _ _ Hin Hty). unfold on_message.
  returns_by ltac:(apply json_get_dict). rewrite Hc.
  returns_by ltac:(by apply append_message_str).
  erewrite try_raises with (e := e); cycle 1.
  { returns_by ltac:(apply json_get_dict).
    rewrite Hst. cbn [negb].
    returns_by ltac:(apply session_found; simpl; apply lookup_insert_eq).
    cbn [messages]. raises_by ltac:(unfold lift; by rewrite Hgw). done. }
  by rewrite send_message_connected with (websocket := websocket).
Qed.

(** A response whose content is [None] is not a text: building the
    assistant message fails validation, and the client is told so. *)
Lemma round_atomic_no_text str coerce client_id websocket s t user_message w :
  connected w client_id websocket s ->
  message_request t user_message false ->
  get_ai_response str (create t) (messages s ++ [mkMessage "user" user_message]) =
    Return None ->
  round str coerce client_id t w =
    (advance client_id s [mkMessage "user" user_message]
       websocket [error_frame ("Error: " +:+ str ValidationError)] w,
     Return tt).
Proof.
  intros (Hreg & Hok & Hs) (d & Hin & Hty & Hc & Hst) Hgw.
  rewrite (round_is_on_message _ _ _ _ _ _ Hin Hty). unfold on_message.
  returns_by ltac:(apply json_get_dict). rewrite Hc.
  returns_by ltac:(by apply append_message_str).
  erewrite try_raises with (e := ValidationError); cycle 1.
  { returns_by ltac:(apply json_get_dict).
    rewrite Hst. cbn [negb].
    returns_by ltac:(apply session_found; simpl; apply lookup_insert_eq).
    cbn [messages]. returns_by ltac:(unfold lift; by rewrite Hgw).
    eapply append_message_None. simpl. apply lookup_insert_eq. }
  by rewrite send_message_connected with (websocket := websocket).
Qed.

Lemma round_stream str coerce client_id websocket s t user_message w :
  connected w client_id websocket s ->
  message_request t user_message true ->
  let g := stream_ai_response str (create_stream t)
             (messages s ++ [mkMessage "user" user_message]) in
  round str coerce client_id t w =
    match thrown g with
    | None =>
        (advance client_id s
           [mkMessage "user" user_message; mkMessage "assistant" (Text.join (yielded g))]
           websocket
           (map stream_frame (yielded g) ++
            [stream_complete_frame (time_end t - time_start t) (Text.join (yielded g))])
           w,
         Return tt)
    | Some e =>
        (advance client_id s [mkMessage "user" user_message] websocket
           (map stream_frame (yielded g) ++ [error_frame ("Error: " +:+ str e)]) w,
         Return tt)
    end.
Proof.
  intros (Hreg & Hok & Hs) (d & Hin & Hty & Hc & Hst) g.
  rewrite (round_is_on_message _ _ _ _ _ _ Hin Hty). unfold on_message.
  returns_by ltac:(apply json_get_dict). rewrite Hc.
  returns_by ltac:(by apply append_message_str).
  destruct (thrown g) as [e|] eqn:Hend.
  - erewrite try_raises with (e := e); cycle 1.
    { returns_by ltac:(apply json_get_dict).
      rewrite Hst. cbn [negb].
      returns_by ltac:(apply session_found; simpl; apply lookup_insert_eq).
      cbn [messages]. fold g.
      raises_by ltac:(rewrite stream_loop_connected with (websocket := websocket)
                        by done; rewrite Hend; reflexivity).
      done. }
    rewrite send_message_connected with (websocket := websocket) by done.
    unfold advance, to_socket. simpl. by rewrite map_app, app_assoc.
  - erewrite try_returns; [reflexivity|].
    returns_by ltac:(apply json_get_dict).
    rewrite Hst. cbn [negb].
    returns_by ltac:(apply session_found; simpl; apply lookup_insert_eq).
    cbn [messages]. fold g.
    returns_by ltac:(rewrite stream_loop_connected with (websocket := websocket)
                       by done; rewrite Hend; reflexivity).
    returns_by ltac:(apply append_message_str; simpl; apply lookup_insert_eq).
    rewrite send_message_connected with (websocket := websocket) by done.
    unfold advance, with_sessions, to_socket; simpl. rewrite insert_insert_eq.
    by rewrite <- !app_assoc, map_app.
Qed.

Lemma stream_contents_frames fragments last :
  has_type "stream" last = false ->
  stream_contents (map stream_frame fragments ++ [last]) = fragments.
Proof.
  intros Hlast. induction fragments as [|chunk fragments IH].
  - simpl. destruct last as [| | | | | |d]; try done.
    destruct (PyDict.get "content" d) as [[]|]; try done. by rewrite Hlast.
  - change (chunk :: stream_contents (map stream_frame fragments ++ [last]) =
            chunk :: fragments).
    by rewrite IH.
Qed.

Lemma filter_error_frames fragments last :
  has_type "error" last = true ->
  filter (fun frame => has_type "error" frame = true)
         (map stream_frame fragments ++ [last]) = [last].
Proof.
  intros Hlast. induction fragments as [|chunk fragments IH]; simpl.
  - rewrite filter_cons_True by done. done.
  - rewrite filter_cons_False by done. exact IH.
Qed.

(** ** The relay engine *)

(** C1: on an open connection (client registered, transport healthy, session
    present), a streaming request whose provider stream ends by completion
    sends, after what was sent before, one "stream" frame per fragment in the
    order of production and then the "stream_complete" frame, all to the
    client's socket; it appends the user's message and then one assistant
    message whose content is the concatenation of the fragments, which is also
    the concatenation of the contents of the "stream" frames sent; and the
    length and sentiment of the terminal frame are those of that text. *)
Theorem stream_frames_reassemble (str : exn -> string) (coerce : json -> option string)
    (client_id : string) (websocket : WebSocket) (s : ChatSession) (t : Turn)
    (user_message : string) (w : World) :
  connected w client_id websocket s ->
  message_request t user_message true ->
  breaks (create_stream t
            (map openai_message (messages s ++ [mkMessage "user" user_message]))) = None ->
  exists fragments frames,
    let reply := Text.join fragments in
    round str coerce client_id t w =
      (mkWorld (active_connections w)
               (<[client_id := mkChatSession (id s)
                    (messages s ++ [mkMessage "user" user_message;
                                    mkMessage "assistant" reply])]> (chat_sessions w))
               (faults w)
               (sent w ++ to_socket websocket frames),
       Return tt) /\
    frames =
      map stream_frame fragments ++
       [JDict [("type", JStr "stream_complete");
               ("metadata",
                JDict [("response_time", JFloat (time_end t - time_start t));
                       ("length", JInt (Z.of_nat (String.length reply)));
                       ("sentiment", JStr (estimate_sentiment reply))])]] /\
    Text.join (stream_contents frames) = reply /\
    fragments =
      yielded (stream_ai_response str (create_stream t)
                 (messages s ++ [mkMessage "user" user_message])).
Proof.
  intros Hopen Hreq Hdone.
  pose proof (round_stream str coerce _ _ _ _ _ _ Hopen Hreq) as Hround.
  simpl in Hround.
  set (g := stream_ai_response str (create_stream t)
              (messages s ++ [mkMessage "user" user_message])) in *.
  assert (Hend : thrown g = None).
  { subst g. unfold stream_ai_response. by rewrite thrown_relay_chunks, Hdone. }
  rewrite Hend in Hround.
  eexists (yielded g), _. cbv zeta.
  split; [exact Hround|]. split; [reflexivity|]. split; [|done].
  by rewrite stream_contents_frames.
Qed.

(** C2: on an open connection, a non-streaming "message" frame for which
    the gateway returns a text appends the user's message and then one
    assistant message with that text to the client's session, and sends to the
    client's socket exactly one frame, of type "message", carrying the text,
    its number of characters and its sentiment estimate. In the scenario of the
    specification (client "abc" connects to a fresh process and sends
    "hello", the gateway returns "hi there") the frame carries "hi there",
    length 8 and sentiment "neutral", the session holds the two messages, and
    the connection stays open. *)
Theorem atomic_reply :
  (forall (str : exn -> string) (coerce : json -> option string) client_id websocket
          s t user_message response w,
      connected w client_id websocket s ->
      message_request t user_message false ->
      get_ai_response str (create t) (messages s ++ [mkMessage "user" user_message]) =
        Return (Some response) ->
      round str coerce client_id t w =
        (mkWorld (active_connections w)
                 (<[client_id := mkChatSession (id s)
                      (messages s ++ [mkMessage "user" user_message;
                                      mkMessage "assistant" response])]> (chat_sessions w))
                 (faults w)
                 (sent w ++
                  [(websocket,
                    JDict [("type", JStr "message");
                           ("content", JStr response);
                           ("metadata",
                            JDict [("response_time", JFloat (time_end t - time_start t));
                                   ("length", JInt (Z.of_nat (String.length response)));
                                   ("sentiment", JStr (estimate_sentiment response))])])]),
         Return tt)) /\
  (forall (str : exn -> string) (coerce : json -> option string) create_stream t0 t1,
      let frame :=
        JDict [("type", JStr "message"); ("content", JStr "hello"); ("stream", JBool false)] in
      let t := mkTurn (Text (Some frame)) (fun _ => Choices [Some "hi there"])
                      create_stream t0 t1 in
      websocket_endpoint str coerce 1 "abc" [t] (boot ∅) =
        (mkWorld [("abc", 1)]
                 {["abc" := mkChatSession "abc" [mkMessage "user" "hello";
                                                 mkMessage "assistant" "hi there"]]}
                 ∅
                 [(1, JDict [("type", JStr "message");
                             ("content", JStr "hi there");
                             ("metadata",
                              JDict [("response_time", JFloat (t1 - t0));
                                     ("length", JInt 8);
                                     ("sentiment", JStr "neutral")])])],
         Return Open)).
Proof.
  split.
  - intros. by apply round_atomic_returned.
  - intros. by vm_compute.
Qed.

(** C3: on an open connection, a "message" frame (streaming or not) whose
    gateway call fails with [e] makes the round end normally; the client's
    socket receives the "stream" frames of the fragments produced before the
    failure (none in atomic mode) and then the frame
    [{"type": "error", "content": "Error: " + str(e)}], which is the only
    frame of type "error" sent; the registry is untouched and the connection
    is still open, so the loop goes on with the frames that follow, and stays
    suspended in [receive_text] when none follows. *)
Theorem gateway_failure_reported (str : exn -> string) (coerce : json -> option string)
    (client_id : string) (websocket : WebSocket) (s : ChatSession) (t : Turn)
    (user_message : string) (streaming : bool) (fragments : list string) (e : exn)
    (w : World) :
  connected w client_id websocket s ->
  message_request t user_message streaming ->
  gateway_fails str t (messages s ++ [mkMessage "user" user_message])
    streaming fragments e ->
  exists w' frames,
    round str coerce client_id t w = (w', Return tt) /\
    sent w' = sent w ++ to_socket websocket frames /\
    frames =
      map stream_frame fragments ++
      [JDict [("type", JStr "error"); ("content", JStr ("Error: " +:+ str e))]] /\
    filter (fun frame => has_type "error" frame = true) frames =
      [JDict [("type", JStr "error"); ("content", JStr ("Error: " +:+ str e))]] /\
    active_connections w' = active_connections w /\
    connected w' client_id websocket
      (mkChatSession (id s) (messages s ++ [mkMessage "user" user_message])) /\
    serve str coerce client_id [t] w = (w', Return Open) /\
    forall rest,
      serve str coerce client_id (t :: rest) w = serve str coerce client_id rest w'.
Proof.
  intros Hopen Hreq Hfail.
  assert (Hround :
    round str coerce client_id t w =
      (advance client_id s [mkMessage "user" user_message] websocket
         (map stream_frame fragments ++ [error_frame ("Error: " +:+ str e)]) w,
       Return tt)).
  { destruct Hfail as [e Hgw|e Hgw].
    - by apply round_atomic_raised.
    - pose proof (round_stream str coerce _ _ _ _ _ _ Hopen Hreq) as Hround.
      simpl in Hround. by rewrite Hgw in Hround. }
  eexists _, _. split; [exact Hround|].
  split; [reflexivity|]. split; [reflexivity|].
  split; [by apply filter_error_frames|].
  split; [reflexivity|].
  split; [|split].
  - destruct Hopen as (Hreg & Hok & Hs). repeat split; simpl; try done.
    apply lookup_insert_eq.
  - unfold serve. simpl. erewrite try_returns; [reflexivity|].
    by erewrite bind_returns by exact Hround.
  - intros rest. unfold serve, try_except. simpl.
    by erewrite bind_returns by exact Hround.
Qed.

Lemma disconnect_world client_id w :
  ConnectionManager.disconnect client_id w =
    (mkWorld (PyDict.del client_id (active_connections w)) (chat_sessions w)
             (faults w) (sent w), Return tt).
Proof.
  unfold ConnectionManager.disconnect, bind, gets, modify, ret.
  destruct (PyDict.get client_id (active_connections w)) as [ws|] eqn:Hget;
    [done|].
  f_equal. destruct w as [conns sessions fs out]; simpl in *. f_equal.
  induction conns as [|[k v] conns IH]; simpl in *; [done|].
  destruct (String.eqb k client_id); [done|]. by rewrite <- IH.
Qed.

(** C9: whenever the receive loop is left by an exception, whichever it
    is (the disconnect reported by [receive_text] or any other fault), the
    endpoint's [try] statement ends with the connection closed, and the
    teardown it runs from the world [w1] of that moment removes the registry
    entry of the identifier, keeps the entries of the other identifiers, and
    leaves the session store exactly as it was in [w1]: no session is deleted
    or created, and every session the store held when the loop started is
    still there with all its messages (the client's own possibly extended by
    the rounds played before the fault, the others untouched). When the
    exception comes from [receive_text] on the first frame, [w1] is the world
    the loop started in, so the store is exactly the one before. *)
Theorem closed_unregisters_and_keeps_sessions (str : exn -> string)
    (coerce : json -> option string) (client_id : string) (turns : list Turn)
    (w w1 : World) (e : exn) :
  while_True str coerce client_id turns w = (w1, Raised e) ->
  let w' := mkWorld (PyDict.del client_id (active_connections w1)) (chat_sessions w1)
                    (faults w1) (sent w1) in
  serve str coerce client_id turns w = (w', Return Closed) /\
  w' = (ConnectionManager.disconnect client_id w1).1 /\
  PyDict.get client_id (active_connections w') = None /\
  (forall k, k <> client_id ->
     PyDict.get k (active_connections w') = PyDict.get k (active_connections w)) /\
  chat_sessions w' = chat_sessions w1 /\
  (forall k s, chat_sessions w !! k = Some s ->
     exists s', chat_sessions w' !! k = Some s' /\
                id s' = id s /\
                messages s `prefix_of` messages s' /\
                (k <> client_id -> s' = s)) /\
  (forall k, chat_sessions w !! k = None -> chat_sessions w' !! k = None) /\
  (forall t rest e0,
     turns = t :: rest -> inbound t = ReceiveRaises e0 -> e = e0 /\ w1 = w).
Proof.
  intros Hloop w'.
  assert (Hserve : serve str coerce client_id turns w = (w', Return Closed)).
  { unfold serve, try_except. rewrite Hloop.
    destruct e; unfold bind; by rewrite disconnect_world. }
  split; [done|]. split; [by rewrite disconnect_world|].
  pose proof (keeps_while_True str coerce client_id turns w) as Hgrow.
  rewrite Hloop in Hgrow. simpl in Hgrow.
  destruct Hgrow as (Hreg & Hpre & Hother & Hown).
  subst w'. simpl.
  split; [apply get_del_eq|].
  split; [intros k Hk; rewrite get_del_ne by done; by rewrite Hreg|].
  split; [done|].
  split; [|split].
  - intros k s Hs. destruct (decide (k = client_id)) as [->|Hne].
    + rewrite Hs in Hown. destruct Hown as (s' & Hs' & Hid & Hms).
      exists s'. by repeat split.
    + exists s. rewrite Hother by done. by repeat split.
  - intros k Hk. destruct (decide (k = client_id)) as [->|Hne].
    + by rewrite Hk in Hown.
    + by rewrite Hother.
  - intros t rest e0 -> Hin. simpl in Hloop.
    unfold bind at 1, round, bind, receive in Hloop. rewrite Hin in Hloop.
    unfold raise in Hloop. by injection Hloop as <- <-.
Qed.

Lemma stream_loop_raises client_id g complete_response e w :
  thrown g = Some e ->
  exists e', (stream_loop client_id g complete_response w).2 = Raised e'.
Proof.
  revert complete_response w.
  induction g as [|chunk next IH|e0]; intros acc w Hend; simpl in *; [done| |].
  - unfold bind.
    destruct (ConnectionManager.send_message _ client_id w) as [w1 [[]|e1]].
    + by apply IH.
    + by exists e1.
  - by exists e0.
Qed.

(** C10: a streaming request whose provider stream breaks leaves the
    session with the user's message appended and nothing after it, whatever
    state the registry and the transport are in, and retracts nothing of what
    was sent; on an open connection the round ends normally and the socket has
    received, after what was sent before, the "stream" frames of the fragments
    yielded before the failure, followed by the "error" frame. *)
Theorem stream_failure_leaves_user_message (str : exn -> string)
    (coerce : json -> option string) (client_id : string) (s : ChatSession)
    (t : Turn) (user_message : string) (e : exn) (w : World) :
  chat_sessions w !! client_id = Some s ->
  message_request t user_message true ->
  breaks (create_stream t
            (map openai_message (messages s ++ [mkMessage "user" user_message]))) = Some e ->
  let g := stream_ai_response str (create_stream t)
             (messages s ++ [mkMessage "user" user_message]) in
  let w' := (round str coerce client_id t w).1 in
  chat_sessions w' =
    <[client_id := mkChatSession (id s) (messages s ++ [mkMessage "user" user_message])]>
      (chat_sessions w) /\
  (exists s', chat_sessions w' !! client_id = Some s' /\
              last (messages s') = Some (mkMessage "user" user_message)) /\
  sent w `prefix_of` sent w' /\
  forall websocket,
    connected w client_id websocket s ->
    round str coerce client_id t w = (w', Return tt) /\
    sent w' =
      sent w ++
      to_socket websocket
        (map stream_frame (yielded g) ++
         [JDict [("type", JStr "error");
                 ("content",
                  JStr ("Error: " +:+
                        str (HTTPException 500
                               ("Error streaming from AI service: " +:+ str e))))]]).
Proof.
  intros Hs Hreq Hbreak g w'.
  assert (Hend : thrown g =
                 Some (HTTPException 500 ("Error streaming from AI service: " +:+ str e))).
  { subst g. unfold stream_ai_response. by rewrite thrown_relay_chunks, Hbreak. }
  assert (Hstore : chat_sessions w' =
            <[client_id := mkChatSession (id s)
                 (messages s ++ [mkMessage "user" user_message])]> (chat_sessions w)
            /\ sent w `prefix_of` sent w').
  { subst w'. destruct Hreq as (d & Hin & Hty & Hc & Hst).
    rewrite (round_is_on_message _ _ _ _ _ _ Hin Hty). unfold on_message.
    returns_by ltac:(apply json_get_dict). rewrite Hc.
    returns_by ltac:(by apply append_message_str).
    set (w1 := with_sessions _ w).
    unfold try_except.
    returns_by ltac:(apply json_get_dict). rewrite Hst. cbn [negb].
    returns_by ltac:(apply session_found; simpl; apply lookup_insert_eq).
    cbn [messages]. fold g. unfold bind.
    pose proof (keeps_stream_loop client_id g "" w1) as (Hr1 & Hs1 & Hp1).
    destruct (stream_loop_raises client_id g "" _ w1 Hend) as [e' He'].
    destruct (stream_loop client_id g "" w1) as [w2 r2]. simpl in *. subst r2.
    match goal with
    | |- context [ConnectionManager.send_message ?m client_id w2] =>
        pose proof (keeps_send_message m client_id w2) as (Hr2 & Hs2 & Hp2);
        destruct (ConnectionManager.send_message m client_id w2) as [w3 r3]
    end.
    simpl in *. split; [by rewrite Hs2, Hs1|]. by etrans. }
  destruct Hstore as [Hstore Hsent].
  split; [done|]. split; [|split; [done|]].
  - rewrite Hstore, lookup_insert_eq. eexists. split; [done|]. simpl.
    by rewrite last_snoc.
  - intros websocket Hopen.
    pose proof (round_stream str coerce _ _ _ _ _ _ Hopen Hreq) as Hround.
    simpl in Hround. fold g in Hround. rewrite Hend in Hround.
    subst w'. by rewrite Hround.
Qed.

(** ** The history routes *)

(** C8: whatever the store holds, [delete_chat_session] returns the success
    acknowledgment and never raises; afterwards the store is the old one
    without the session of [client_id], nothing else has changed, and a second
    call returns the same acknowledgment and changes nothing. *)
Theorem delete_chat_session_idempotent (client_id : string) (w : World) :
  exists w',
    delete_chat_session client_id w =
      (w', Return (JDict [("status", JStr "success");
                          ("message", JStr "Chat session deleted")])) /\
    chat_sessions w' = delete client_id (chat_sessions w) /\
    chat_sessions w' !! client_id = None /\
    active_connections w' = active_connections w /\
    faults w' = faults w /\
    sent w' = sent w /\
    delete_chat_session client_id w' =
      (w', Return (JDict [("status", JStr "success");
                          ("message", JStr "Chat session deleted")])).
Proof.
  unfold delete_chat_session, bind, gets, modify, ret.
  destruct (chat_sessions w !! client_id) as [s|] eqn:Hs; simpl.
  - eexists. split; [reflexivity|]. simpl.
    rewrite lookup_delete_eq. by repeat split.
  - exists w. rewrite Hs. repeat split; try done.
    by rewrite delete_id.
Qed.

Lemma endpoint_first_connection str coerce websocket client_id turns w :
  chat_sessions w !! client_id = None ->
  websocket_endpoint str coerce websocket client_id turns w =
    serve str coerce client_id turns
      (mkWorld (PyDict.set client_id websocket (active_connections w))
               (<[client_id := mkChatSession client_id []]> (chat_sessions w))
               (faults w) (sent w)).
Proof.
  intros Hnew. unfold websocket_endpoint, ConnectionManager.connect.
  unfold bind at 1, modify. unfold bind at 1, gets. simpl. rewrite Hnew.
  reflexivity.
Qed.

(** C7: [get_chat_history] raises the 404 "Chat session not found" exactly
    when the store has no session for the identifier, and otherwise returns
    the stored session and changes nothing. In particular it raises for an
    identifier never seen, and once that identifier has connected and one
    "message" frame has been answered, it returns the session with exactly
    the user's message and the assistant's reply. *)
Theorem get_chat_history_not_found_iff (client_id : string) (w : World) :
  (get_chat_history client_id w =
     (w, Raised (HTTPException 404 "Chat session not found")) <->
   chat_sessions w !! client_id = None) /\
  (forall s, get_chat_history client_id w = (w, Return s) <->
             chat_sessions w !! client_id = Some s) /\
  (forall (str : exn -> string) (coerce : json -> option string) websocket t
          user_message response,
      chat_sessions w !! client_id = None ->
      faults w !! websocket = None ->
      message_request t user_message false ->
      get_ai_response str (create t) [mkMessage "user" user_message] =
        Return (Some response) ->
      (get_chat_history client_id
         (websocket_endpoint str coerce websocket client_id [t] w).1).2 =
        Return (mkChatSession client_id
                  [mkMessage "user" user_message; mkMessage "assistant" response])).
Proof.
  split; [|split].
  - unfold get_chat_history, session, bind, gets, raise.
    destruct (chat_sessions w !! client_id) as [s|] eqn:Hs; simpl; rewrite ?Hs;
      split; intros; by simplify_eq.
  - intros s'. unfold get_chat_history, session, bind, gets, raise.
    destruct (chat_sessions w !! client_id) as [s|] eqn:Hs; simpl; rewrite ?Hs;
      split; intros; by simplify_eq.
  - intros str coerce websocket t user_message response Hnew Hok Hreq Hgw.
    rewrite endpoint_first_connection by done.
    set (w1 := mkWorld _ _ _ _).
    assert (Hopen : connected w1 client_id websocket (mkChatSession client_id [])).
    { repeat split; simpl; [apply get_set_eq|done|apply lookup_insert_eq]. }
    unfold serve. simpl. erewrite try_returns; cycle 1.
    { erewrite bind_returns
        by (by apply round_atomic_returned with (websocket := websocket)
                                              (s := mkChatSession client_id [])).
      reflexivity. }
    unfold get_chat_history, session, bind, gets. simpl.
    rewrite lookup_insert_eq. unfold advance. simpl.
    by rewrite lookup_insert_eq.
Qed.

(** ** The samples *)

Lemma sample_world_connected : connected sample_world "abc" 1 (mkChatSession "abc" []).
Proof. by repeat split. Defined.

Lemma sample_turn_request streaming completion stream :
  message_request (sample_turn streaming completion stream) "hello" streaming.
Proof. eexists. repeat split; by destruct streaming. Defined.

(** The streamed answer "hi", " there" reaches socket 1 as two "stream"
    frames and a "stream_complete" frame, and is recorded as "hi there". *)
Lemma stream_frames_reassemble_sample :
  let t := sample_turn true (Choices []) (mkStream [[Some "hi"]; []; [Some " there"]] None) in
  let w' := (round sample_str sample_coerce "abc" t sample_world).1 in
  sent w' =
    [(1, stream_frame "hi"); (1, stream_frame " there");
     (1, stream_complete_frame 2 "hi there")] /\
  chat_sessions w' !! "abc" =
    Some (mkChatSession "abc" [mkMessage "user" "hello"; mkMessage "assistant" "hi there"]).
Proof.
  cbv zeta.
  destruct (stream_frames_reassemble sample_str sample_coerce "abc" 1
              (mkChatSession "abc" [])
              (sample_turn true (Choices [])
                 (mkStream [[Some "hi"]; []; [Some " there"]] None))
              "hello" sample_world sample_world_connected
              (sample_turn_request _ _ _) eq_refl)
    as (fragments & frames & Hround & -> & _ & ->).
  rewrite Hround. by vm_compute.
Defined.

(** The scenario of the specification, from the open connection. *)
Lemma atomic_reply_sample :
  round sample_str sample_coerce "abc"
        (sample_turn false (Choices [Some "hi there"]) (mkStream [] None)) sample_world =
    (mkWorld [("abc", 1)]
             {["abc" := mkChatSession "abc" [mkMessage "user" "hello";
                                             mkMessage "assistant" "hi there"]]}
             ∅
             [(1, JDict [("type", JStr "message");
                         ("content", JStr "hi there");
                         ("metadata",
                          JDict [("response_time", JFloat 2);
                                 ("length", JInt 8);
                                 ("sentiment", JStr "neutral")])])],
     Return tt).
Proof.
  rewrite (proj1 atomic_reply sample_str sample_coerce "abc" 1 (mkChatSession "abc" [])
             (sample_turn false (Choices [Some "hi there"]) (mkStream [] None))
             "hello" "hi there" sample_world sample_world_connected
             (sample_turn_request _ _ _) eq_refl).
  by vm_compute.
Defined.

(** The provider raises in atomic mode: one "error" frame, connection open. *)
Lemma gateway_failure_reported_sample :
  let t := sample_turn false (CreateRaises (OtherError "boom")) (mkStream [] None) in
  serve sample_str sample_coerce "abc" [t] sample_world =
    (mkWorld [("abc", 1)]
             {["abc" := mkChatSession "abc" [mkMessage "user" "hello"]]}
             ∅
             [(1, JDict [("type", JStr "error");
                         ("content", JStr "Error: Error calling AI service: boom")])],
     Return Open).
Proof.
  cbv zeta.
  destruct (gateway_failure_reported sample_str sample_coerce "abc" 1
              (mkChatSession "abc" [])
              (sample_turn false (CreateRaises (OtherError "boom")) (mkStream [] None))
              "hello" false [] (HTTPException 500 "Error calling AI service: boom")
              sample_world sample_world_connected (sample_turn_request _ _ _)
              ltac:(by constructor))
    as (w' & frames & Hround & _ & _ & _ & _ & _ & Hserve & _).
  rewrite Hserve. apply (f_equal fst) in Hround. cbn [fst] in Hround.
  rewrite <- Hround. by vm_compute.
Defined.

(** After one answered frame a text that is not JSON arrives: the fault
    closes the connection, the registry is emptied, and the session keeps the
    two messages exchanged. *)
Lemma closed_unregisters_and_keeps_sessions_sample :
  serve sample_str sample_coerce "abc"
        [sample_turn false (Choices [Some "hi there"]) (mkStream [] None);
         sample_inbound (Text None)]
        sample_world =
    (mkWorld []
             {["abc" := mkChatSession "abc" [mkMessage "user" "hello";
                                             mkMessage "assistant" "hi there"]]}
             ∅
             [(1, message_frame 2 "hi there")],
     Return Closed).
Proof.
  destruct (closed_unregisters_and_keeps_sessions sample_str sample_coerce "abc"
           [sample_turn false (Choices [Some "hi there"]) (mkStream [] None);
            sample_inbound (Text None)]
           sample_world
           (mkWorld [("abc", 1)]
                    {["abc" := mkChatSession "abc" [mkMessage "user" "hello";
                                                    mkMessage "assistant" "hi there"]]}
                    ∅
                    [(1, message_frame 2 "hi there")])
           JSONDecodeError ltac:(by vm_compute)) as [Hserve _].
  rewrite Hserve. reflexivity.
Defined.

(** The provider breaks after "hi": the fragment stays sent, the session
    ends with the user's message. *)
Lemma stream_failure_leaves_user_message_sample :
  let t := sample_turn true (Choices [])
             (mkStream [[Some "hi"]] (Some (OtherError "boom"))) in
  let w' := (round sample_str sample_coerce "abc" t sample_world).1 in
  chat_sessions w' !! "abc" = Some (mkChatSession "abc" [mkMessage "user" "hello"]) /\
  sent w' =
    [(1, stream_frame "hi");
     (1, error_frame "Error: Error streaming from AI service: boom")].
Proof.
  cbv zeta.
  destruct (stream_failure_leaves_user_message sample_str sample_coerce "abc"
              (mkChatSession "abc" [])
              (sample_turn true (Choices [])
                 (mkStream [[Some "hi"]] (Some (OtherError "boom"))))
              "hello" (OtherError "boom") sample_world eq_refl
              (sample_turn_request _ _ _) eq_refl)
    as (Hstore & _ & _ & Hopen).
  destruct (Hopen 1 sample_world_connected) as [_ Hsent].
  split; [by rewrite Hstore|]. by rewrite Hsent.
Defined.

(** Socket 1 gets the frame, the send to socket 2 raises, socket 3 gets
    nothing. *)
Lemma broadcast_stops_at_first_failure_sample :
  ConnectionManager.broadcast (JStr "notice") sample_crowd =
    (mkWorld (active_connections sample_crowd) (chat_sessions sample_crowd)
             (faults sample_crowd) [(1, JStr "notice")],
     Raised WebSocketDisconnect).
Proof.
  apply (proj1 (broadcast_stops_at_first_failure (JStr "notice") sample_crowd)
           [("a", 1)] "b" 2 [("c", 3)] WebSocketDisconnect eq_refl).
  - intros ws Hws. apply list_elem_of_singleton in Hws as ->. reflexivity.
  - reflexivity.
Defined.

(** An identifier never seen is not found; after "hello" is answered the
    history holds the two messages. *)
Lemma get_chat_history_sample :
  (get_chat_history "abc" (boot ∅)).2 =
    Raised (HTTPException 404 "Chat session not found") /\
  (get_chat_history "abc"
     (websocket_endpoint sample_str sample_coerce 1 "abc"
        [sample_turn false (Choices [Some "hi there"]) (mkStream [] None)] (boot ∅)).1).2 =
    Return (mkChatSession "abc" [mkMessage "user" "hello";
                                 mkMessage "assistant" "hi there"]).
Proof.
  split.
  - by rewrite (proj2 (proj1 (get_chat_history_not_found_iff "abc" (boot ∅))) eq_refl).
  - apply (proj2 (proj2 (get_chat_history_not_found_iff "abc" (boot ∅)))
             sample_str sample_coerce 1
             (sample_turn false (Choices [Some "hi there"]) (mkStream [] None))
             "hello" "hi there" eq_refl (lookup_empty 1) (sample_turn_request _ _ _)
             eq_refl).
Defined.

(** ** Where the code differs from the specification *)

(** Against C4: a chunk whose first choice carries the empty text (as the
    first chunk of a provider stream does) is yielded as an empty fragment. *)
Lemma stream_ai_response_yields_empty_fragment :
  yielded (stream_ai_response sample_str
             (fun _ => mkStream [[Some ""]; [Some "hi"]] None) []) = [""; "hi"].
Proof. reflexivity. Qed.

(** Against C5: with clients "a", "b", "c" registered in that order and the
    transport of "b" dead, the socket of "c" is registered and healthy, and yet
    [broadcast] raises after sending to "a" only: "c" is sent nothing. *)
Lemma broadcast_failure_prevents_later_deliveries :
  PyDict.get "c" (active_connections sample_crowd) = Some 3 /\
  faults sample_crowd !! 3 = None /\
  (ConnectionManager.broadcast (JStr "notice") sample_crowd).2 =
    Raised WebSocketDisconnect /\
  sent (ConnectionManager.broadcast (JStr "notice") sample_crowd).1 =
    [(1, JStr "notice")].
Proof. by vm_compute. Qed.

(** * Further properties of the code *)

(** ** Shared lemmas *)

Lemma serve_step str coerce client_id t rest w w1 :
  round str coerce client_id t w = (w1, Return tt) ->
  serve str coerce client_id (t :: rest) w = serve str coerce client_id rest w1.
Proof.
  intros Hround. unfold serve, try_except. simpl.
  by erewrite bind_returns by exact Hround.
Qed.

Lemma serve_raises str coerce client_id t rest w w1 e :
  round str coerce client_id t w = (w1, Raised e) ->
  serve str coerce client_id (t :: rest) w =
    (mkWorld (PyDict.del client_id (active_connections w1)) (chat_sessions w1)
             (faults w1) (sent w1), Return Closed).
Proof.
  intros Hround. unfold serve. erewrite try_raises; cycle 1.
  { simpl. by erewrite bind_raises by exact Hround. }
  destruct e; unfold bind; by rewrite disconnect_world.
Qed.

Lemma serve_returns str coerce client_id turns w :
  exists w' st, serve str coerce client_id turns w = (w', Return st).
Proof.
  unfold serve, try_except.
  destruct (while_True str coerce client_id turns w) as [w1 [st|e]]; [by eexists _, _|].
  destruct e; unfold bind; rewrite disconnect_world; by eexists _, _.
Qed.

Lemma send_message_unregistered message client_id w :
  PyDict.get client_id (active_connections w) = None ->
  ConnectionManager.send_message message client_id w = (w, Return tt).
Proof.
  intros Hreg. unfold ConnectionManager.send_message, bind, gets. by rewrite Hreg.
Qed.

Lemma send_message_dead message client_id websocket e w :
  PyDict.get client_id (active_connections w) = Some websocket ->
  faults w !! websocket = Some (0, e) ->
  ConnectionManager.send_message message client_id w = (w, Raised e).
Proof.
  intros Hreg Hdead. unfold ConnectionManager.send_message, bind, gets.
  rewrite Hreg. by apply send_text_broken.
Qed.

Lemma append_message_touches_sessions_only coerce client_id role content w :
  active_connections (append_message coerce client_id role content w).1 =
    active_connections w /\
  faults (append_message coerce client_id role content w).1 = faults w /\
  sent (append_message coerce client_id role content w).1 = sent w.
Proof.
  unfold append_message, session, bind.
  destruct (chat_sessions w !! client_id) as [s|]; [|done].
  unfold new_Message.
  destruct content; try destruct (coerce _); by simpl.
Qed.

(** A relation that [send_message] and [append_message] keep is kept by
    the whole loop. *)
Section KeptByTheLoop.

Context (R : World -> World -> Prop) (coerce : json -> option string)
        (client_id : string).
Hypothesis R_refl : forall w, R w w.
Hypothesis R_trans : forall w1 w2 w3, R w1 w2 -> R w2 w3 -> R w1 w3.
Hypothesis R_send :
  forall message, keeps R (ConnectionManager.send_message message client_id).
Hypothesis R_append :
  forall role content, keeps R (append_message coerce client_id role content).

Lemma stream_loop_kept g complete_response :
  keeps R (stream_loop client_id g complete_response).
Proof.
  revert complete_response. induction g as [|chunk next IH|e]; intros acc; simpl.
  - apply (keeps_pure _ R_refl (Return acc)).
  - apply keeps_bind; [done|apply R_send|]. intros _. apply IH.
  - apply (keeps_pure _ R_refl (Raised e)).
Qed.

Lemma round_kept str t : keeps R (round str coerce client_id t).
Proof.
  unfold round. apply keeps_bind; [done| |].
  { intros w. unfold receive. destruct (inbound t) as [e|[j|]]; apply R_refl. }
  intros message_data. unfold dispatch.
  apply keeps_bind; [done|by apply keeps_json_get|]. intros type.
  destruct (is_str "message" type).
  - unfold on_message.
    apply keeps_bind; [done|by apply keeps_json_get|]. intros user_message.
    apply keeps_bind; [done|apply R_append|]. intros _.
    apply keeps_try_except; [done| |intros e; apply R_send].
    apply keeps_bind; [done|by apply keeps_json_get|]. intros stream.
    destruct (negb (truthy stream)).
    + apply keeps_bind; [done|by apply keeps_session|]. intros s.
      apply keeps_bind; [done|by apply keeps_pure|]. intros [response|].
      * apply keeps_bind; [done|apply R_append|]. intros _. apply R_send.
      * apply R_append.
    + apply keeps_bind; [done|by apply keeps_session|]. intros s.
      apply keeps_bind; [done|apply stream_loop_kept|]. intros complete.
      apply keeps_bind; [done|apply R_append|]. intros _. apply R_send.
  - destruct (is_str "feedback" type); [apply R_send|].
    by apply (keeps_pure _ R_refl (Return tt)).
Qed.

Lemma while_True_kept str turns : keeps R (while_True str coerce client_id turns).
Proof.
  induction turns as [|t turns IH]; simpl.
  - apply (keeps_pure _ R_refl (Return Open)).
  - apply keeps_bind; [done|apply round_kept|]. intros _. apply IH.
Qed.

End KeptByTheLoop.

Lemma addressed_refl client_id w : addressed client_id w w.
Proof. split; [done|]. exists []. by rewrite app_nil_r. Qed.

Lemma addressed_trans client_id w1 w2 w3 :
  addressed client_id w1 w2 -> addressed client_id w2 w3 -> addressed client_id w1 w3.
Proof.
  intros (Hreg & new & Hsent & Hnew) (Hreg' & new' & Hsent' & Hnew').
  split; [congruence|]. exists (new ++ new').
  split; [by rewrite Hsent', Hsent, app_assoc|].
  apply Forall_app. split; [done|]. by rewrite Hreg in Hnew'.
Qed.

Lemma addressed_send_message message client_id :
  keeps (addressed client_id) (ConnectionManager.send_message message client_id).
Proof.
  intros w. unfold ConnectionManager.send_message, bind, gets.
  destruct (PyDict.get client_id (active_connections w)) as [ws|] eqn:Hreg;
    [|apply addressed_refl].
  unfold send_text. destruct (faults w !! ws) as [[[|n] e]|]; simpl;
    try apply addressed_refl;
    (split; [done|]; exists [(ws, message)]; split; [done|];
     by apply Forall_singleton).
Qed.

Lemma addressed_append_message coerce client_id role content :
  keeps (addressed client_id) (append_message coerce client_id role content).
Proof.
  intros w.
  destruct (append_message_touches_sessions_only coerce client_id role content w)
    as (Hreg & _ & Hsent).
  split; [done|]. exists []. by rewrite app_nil_r.
Qed.

Lemma addressed_while_True str coerce client_id turns :
  keeps (addressed client_id) (while_True str coerce client_id turns).
Proof.
  apply (while_True_kept (addressed client_id) coerce client_id
           (addressed_refl client_id) (addressed_trans client_id)
           (fun message => addressed_send_message message client_id)
           (addressed_append_message coerce client_id)).
Qed.

Lemma serve_after_loop str coerce client_id turns w :
  let w1 := (while_True str coerce client_id turns w).1 in
  let w' := (serve str coerce client_id turns w).1 in
  chat_sessions w' = chat_sessions w1 /\ sent w' = sent w1 /\
  forall k, k <> client_id ->
    PyDict.get k (active_connections w') = PyDict.get k (active_connections w1).
Proof.
  unfold serve, try_except.
  destruct (while_True str coerce client_id turns w) as [w1 [st|e]]; simpl; [done|].
  destruct e; unfold bind; rewrite disconnect_world; simpl;
    (split; [done|]; split; [done|]; intros k Hk; by apply get_del_ne).
Qed.

(** ** One connection among others *)

(** X1: whatever frames arrive and whatever the gateway and the transport
    do, the endpoint's [try] statement returns (no exception leaves it);
    it leaves the sessions and the registry entries of all other clients as
    they were, creates no session, deletes none, and only appends to the
    messages of the client's own session; and every text it sends goes to the
    socket that was registered for the client when it started. *)
Theorem serve_is_confined (str : exn -> string) (coerce : json -> option string)
    (client_id : string) (turns : list Turn) (w : World) :
  exists w' st new,
    serve str coerce client_id turns w = (w', Return st) /\
    (forall k, k <> client_id ->
       chat_sessions w' !! k = chat_sessions w !! k /\
       PyDict.get k (active_connections w') = PyDict.get k (active_connections w)) /\
    match chat_sessions w !! client_id with
    | None => chat_sessions w' !! client_id = None
    | Some s =>
        exists s', chat_sessions w' !! client_id = Some s' /\
                   id s' = id s /\ messages s `prefix_of` messages s'
    end /\
    sent w' = sent w ++ new /\
    Forall (fun p => PyDict.get client_id (active_connections w) = Some p.1) new.
Proof.
  destruct (serve_returns str coerce client_id turns w) as (w' & st & Hserve).
  pose proof (serve_after_loop str coerce client_id turns w) as Hafter.
  rewrite Hserve in Hafter. simpl in Hafter. destruct Hafter as (Hs & Hsent & Hreg).
  pose proof (keeps_while_True str coerce client_id turns w) as (Hreg1 & _ & Hother & Hown).
  pose proof (addressed_while_True str coerce client_id turns w)
    as (_ & new & Hnew & Hto).
  exists w', st, new. split; [done|]. rewrite Hs, Hsent.
  split; [|by repeat split].
  intros k Hk. split; [by apply Hother|]. rewrite Hreg by done. by rewrite Hreg1.
Qed.

(** X2: a loop run for a client that is not in the registry sends nothing,
    to anyone; and yet an atomic request the gateway answers is still recorded
    in the session, reply included. *)
Theorem unregistered_client_is_sent_nothing (str : exn -> string)
    (coerce : json -> option string) (client_id : string) (w : World) :
  PyDict.get client_id (active_connections w) = None ->
  (forall turns, sent (serve str coerce client_id turns w).1 = sent w) /\
  (forall s t user_message response,
      chat_sessions w !! client_id = Some s ->
      message_request t user_message false ->
      get_ai_response str (create t) (messages s ++ [mkMessage "user" user_message]) =
        Return (Some response) ->
      round str coerce client_id t w =
        (mkWorld (active_connections w)
                 (<[client_id := mkChatSession (id s)
                      (messages s ++ [mkMessage "user" user_message;
                                      mkMessage "assistant" response])]> (chat_sessions w))
                 (faults w) (sent w),
         Return tt)).
Proof.
  intros Hreg. split.
  - intros turns.
    pose proof (serve_after_loop str coerce client_id turns w) as (_ & Hsent & _).
    rewrite Hsent.
    pose proof (addressed_while_True str coerce client_id turns w)
      as (_ & new & Hnew & Hto).
    rewrite Hnew. destruct new as [|p new]; [by rewrite app_nil_r|].
    apply Forall_cons in Hto as [Hp _]. congruence.
  - intros s t user_message response Hs (d & Hin & Hty & Hc & Hst) Hgw.
    rewrite (round_is_on_message _ _ _ _ _ _ Hin Hty). unfold on_message.
    returns_by ltac:(apply json_get_dict). rewrite Hc.
    returns_by ltac:(by apply append_message_str).
    erewrite try_returns; [reflexivity|].
    returns_by ltac:(apply json_get_dict).
    rewrite Hst. cbn [negb].
    returns_by ltac:(apply session_found; simpl; apply lookup_insert_eq).
    cbn [messages]. returns_by ltac:(unfold lift; by rewrite Hgw).
    returns_by ltac:(apply append_message_str; simpl; apply lookup_insert_eq).
    rewrite send_message_unregistered by done.
    unfold with_sessions; simpl. rewrite insert_insert_eq.
    by rewrite <- app_assoc.
Qed.

(** ** The registry *)

Lemma del_set_fresh {V} key (v : V) (d : list (string * V)) :
  PyDict.get key d = None -> PyDict.del key (PyDict.set key v d) = d.
Proof.
  induction d as [|[k v'] d IH]; simpl.
  - by rewrite String.eqb_refl.
  - destruct (String.eqb_spec k key) as [->|Hne]; [done|].
    intros Hget. simpl. destruct (String.eqb_spec k key); [done|]. by rewrite IH.
Qed.

Lemma del_absent {V} key (d : list (string * V)) :
  PyDict.get key d = None -> PyDict.del key d = d.
Proof.
  induction d as [|[k v] d IH]; simpl; [done|].
  destruct (String.eqb_spec k key); [done|]. intros Hget. by rewrite IH.
Qed.

Lemma length_set {V} key (v : V) (d : list (string * V)) :
  length (PyDict.set key v d) =
    match PyDict.get key d with Some _ => length d | None => S (length d) end.
Proof.
  induction d as [|[k v'] d IH]; simpl; [done|].
  destruct (String.eqb_spec k key); simpl; [done|].
  rewrite IH. by destruct (PyDict.get key d).
Qed.

(** X3: [connect] registers or replaces: afterwards the identifier is bound
    to the new socket, every other identifier is bound as before, the registry
    has grown by one entry if the identifier was new and kept its size if it
    was taken, and sessions, transport and sent texts are untouched. *)
Theorem connect_registers_or_replaces (websocket : WebSocket) (client_id : string)
    (w : World) :
  exists w',
    ConnectionManager.connect websocket client_id w = (w', Return tt) /\
    PyDict.get client_id (active_connections w') = Some websocket /\
    (forall k, k <> client_id ->
       PyDict.get k (active_connections w') = PyDict.get k (active_connections w)) /\
    length (active_connections w') =
      match PyDict.get client_id (active_connections w) with
      | Some _ => length (active_connections w)
      | None => S (length (active_connections w))
      end /\
    chat_sessions w' = chat_sessions w /\ faults w' = faults w /\ sent w' = sent w.
Proof.
  eexists. split; [reflexivity|]. simpl.
  split; [apply get_set_eq|].
  split; [intros k Hk; by apply get_set_ne|].
  split; [apply length_set|done].
Qed.

(** X4: after a connection under an identifier, a frame sent to that
    identifier goes to the socket of that connection and to no other, whatever
    socket was registered under the identifier before. *)
Theorem reconnection_redirects_frames (websocket : WebSocket) (client_id : string)
    (message : json) (w : World) :
  faults w !! websocket = None ->
  bind (ConnectionManager.connect websocket client_id)
       (fun _ => ConnectionManager.send_message message client_id) w =
    (mkWorld (PyDict.set client_id websocket (active_connections w))
             (chat_sessions w) (faults w) (sent w ++ [(websocket, message)]),
     Return tt).
Proof.
  intros Hok. unfold bind at 1, ConnectionManager.connect, modify.
  rewrite send_message_connected with (websocket := websocket); [done| |done].
  simpl. apply get_set_eq.
Qed.

(** X5: [disconnect] undoes the [connect] of an identifier that was not
    registered, and is idempotent: a second [disconnect] changes nothing. *)
Theorem disconnect_undoes_connect (websocket : WebSocket) (client_id : string)
    (w : World) :
  (PyDict.get client_id (active_connections w) = None ->
   bind (ConnectionManager.connect websocket client_id)
        (fun _ => ConnectionManager.disconnect client_id) w = (w, Return tt)) /\
  bind (ConnectionManager.disconnect client_id)
       (fun _ => ConnectionManager.disconnect client_id) w =
    ConnectionManager.disconnect client_id w.
Proof.
  split.
  - intros Hnew. unfold bind at 1, ConnectionManager.connect, modify.
    rewrite disconnect_world. simpl. rewrite del_set_fresh by done. by destruct w.
  - unfold bind at 1. rewrite !disconnect_world. simpl.
    by rewrite (del_absent client_id (PyDict.del _ _)) by apply get_del_eq.
Qed.

(** ** Opening a connection *)

(** X6: opening a connection with no frame arriving leaves the coroutine
    suspended with the client registered; the client's session is the one the
    store already had, messages included, or a new empty session carrying the
    identifier when there was none; other sessions and the sent texts are
    untouched. *)
Theorem endpoint_ensures_session (str : exn -> string) (coerce : json -> option string)
    (websocket : WebSocket) (client_id : string) (w : World) :
  exists w',
    websocket_endpoint str coerce websocket client_id [] w = (w', Return Open) /\
    PyDict.get client_id (active_connections w') = Some websocket /\
    chat_sessions w' !! client_id =
      Some (default (mkChatSession client_id []) (chat_sessions w !! client_id)) /\
    (forall k, k <> client_id -> chat_sessions w' !! k = chat_sessions w !! k) /\
    sent w' = sent w.
Proof.
  unfold websocket_endpoint, ConnectionManager.connect.
  unfold bind at 1, modify. unfold bind at 1, gets. simpl.
  destruct (chat_sessions w !! client_id) as [s|] eqn:Hs.
  - eexists. split; [reflexivity|]. simpl.
    split; [apply get_set_eq|]. by rewrite Hs.
  - eexists. split; [reflexivity|]. simpl.
    split; [apply get_set_eq|]. split; [apply lookup_insert_eq|].
    split; [|done]. intros k Hk. by apply lookup_insert_ne.
Qed.

(** X7: deleting a client's history and then opening a connection for the
    client starts from an empty session: right after the deletion the history
    route answers 404, and after the connection it returns the session with
    the identifier and no message, whatever the store held before. *)
Theorem reconnect_after_delete_starts_empty (str : exn -> string)
    (coerce : json -> option string) (websocket : WebSocket) (client_id : string)
    (w : World) :
  let w1 := (delete_chat_session client_id w).1 in
  let w2 := (websocket_endpoint str coerce websocket client_id [] w1).1 in
  (get_chat_history client_id w1).2 =
    Raised (HTTPException 404 "Chat session not found") /\
  (get_chat_history client_id w2).2 = Return (mkChatSession client_id []).
Proof.
  assert (Hgone : chat_sessions (delete_chat_session client_id w).1 !! client_id = None).
  { unfold delete_chat_session, bind, gets, modify, ret.
    destruct (chat_sessions w !! client_id) eqn:Hs; simpl; [apply lookup_delete_eq|done]. }
  cbv zeta. split.
  - unfold get_chat_history, bind, gets, raise. by rewrite Hgone.
  - rewrite endpoint_first_connection by done.
    unfold serve, try_except. simpl.
    unfold get_chat_history, session, bind, gets. simpl.
    rewrite lookup_insert_eq. simpl. by rewrite lookup_insert_eq.
Qed.

Lemma delete_chat_session_world client_id w :
  (delete_chat_session client_id w).1 =
    mkWorld (active_connections w) (delete client_id (chat_sessions w))
            (faults w) (sent w) /\
  chat_sessions (delete_chat_session client_id w).1 !! client_id = None.
Proof.
  unfold delete_chat_session, bind, gets, modify, ret.
  destruct (chat_sessions w !! client_id) as [s|] eqn:Hs; simpl.
  - split; [done|apply lookup_delete_eq].
  - split; [|done]. rewrite delete_id by done. by destruct w.
Qed.

(** ** Frames that are not answered messages *)

Lemma round_dispatches str coerce client_id t d w :
  inbound t = Text (Some (JDict d)) ->
  round str coerce client_id t w = dispatch str coerce client_id (JDict d) t w.
Proof. intros Hin. unfold round, receive, bind, ret. by rewrite Hin. Qed.

(** X8: a "feedback" frame changes no session and is acknowledged with
    exactly one frame [{"type": "feedback_received"}] to the client's socket,
    whether or not the client still has a session; the loop goes on. *)
Theorem feedback_is_acknowledged (str : exn -> string) (coerce : json -> option string)
    (client_id : string) (websocket : WebSocket) (t : Turn)
    (d : list (string * json)) (w : World) :
  inbound t = Text (Some (JDict d)) ->
  PyDict.get "type" d = Some (JStr "feedback") ->
  PyDict.get client_id (active_connections w) = Some websocket ->
  faults w !! websocket = None ->
  let w' := mkWorld (active_connections w) (chat_sessions w) (faults w)
                    (sent w ++ [(websocket, JDict [("type", JStr "feedback_received")])]) in
  round str coerce client_id t w = (w', Return tt) /\
  forall rest,
    serve str coerce client_id (t :: rest) w = serve str coerce client_id rest w'.
Proof.
  intros Hin Hty Hreg Hok w'.
  assert (Hround : round str coerce client_id t w = (w', Return tt)).
  { rewrite (round_dispatches _ _ _ _ _ _ Hin).
    unfold dispatch, json_get, bind at 1, ret. rewrite Hty. simpl.
    by apply send_message_connected. }
  split; [done|]. intros rest. by apply serve_step.
Qed.

(** X9: a frame that is a dictionary whose [type] is neither "message" nor
    "feedback" (or is missing) is dropped without a trace: nothing is sent,
    nothing is recorded, and the loop goes on. *)
Theorem unknown_type_is_ignored (str : exn -> string) (coerce : json -> option string)
    (client_id : string) (t : Turn) (d : list (string * json)) (w : World) :
  inbound t = Text (Some (JDict d)) ->
  is_str "message" (default JNull (PyDict.get "type" d)) = false ->
  is_str "feedback" (default JNull (PyDict.get "type" d)) = false ->
  round str coerce client_id t w = (w, Return tt) /\
  forall rest,
    serve str coerce client_id (t :: rest) w = serve str coerce client_id rest w.
Proof.
  intros Hin Hm Hf.
  assert (Hround : round str coerce client_id t w = (w, Return tt)).
  { rewrite (round_dispatches _ _ _ _ _ _ Hin).
    unfold dispatch, json_get, bind, ret. by rewrite Hm, Hf. }
  split; [done|]. intros rest. by apply serve_step.
Qed.

(** X10: a text that is not JSON, or whose JSON value is not a dictionary,
    closes the connection: the client is unregistered, nothing is sent (no
    error frame), no session changes, and the frames that follow are never
    read. *)
Theorem malformed_frame_closes (str : exn -> string) (coerce : json -> option string)
    (client_id : string) (t : Turn) (rest : list Turn) (w : World) :
  (inbound t = Text None \/
   exists j, inbound t = Text (Some j) /\ forall d, j <> JDict d) ->
  serve str coerce client_id (t :: rest) w =
    (mkWorld (PyDict.del client_id (active_connections w)) (chat_sessions w)
             (faults w) (sent w), Return Closed).
Proof.
  intros Hbad.
  assert (Hround : exists e, round str coerce client_id t w = (w, Raised e)).
  { unfold round, receive, bind. destruct Hbad as [->|(j & -> & Hj)].
    - by exists JSONDecodeError.
    - exists AttributeError. unfold ret, dispatch, bind, json_get.
      destruct j; try done. by destruct (Hj items). }
  destruct Hround as [e Hround]. by rewrite (serve_raises _ _ _ _ _ _ _ _ Hround).
Qed.

(** X11: once a client's session has been deleted through the history
    route, the next "message" frame on the client's open connection closes the
    connection: the frame is not recorded, the gateway's answer is not sent,
    no error frame is sent, and the session is not created again. *)
Theorem message_after_delete_closes (str : exn -> string)
    (coerce : json -> option string) (client_id : string) (t : Turn)
    (d : list (string * json)) (rest : list Turn) (w : World) :
  inbound t = Text (Some (JDict d)) ->
  PyDict.get "type" d = Some (JStr "message") ->
  serve str coerce client_id (t :: rest) (delete_chat_session client_id w).1 =
    (mkWorld (PyDict.del client_id (active_connections w))
             (delete client_id (chat_sessions w)) (faults w) (sent w),
     Return Closed).
Proof.
  intros Hin Hty.
  destruct (delete_chat_session_world client_id w) as (Hw1 & Hgone).
  rewrite Hw1. set (w1 := mkWorld _ _ _ _).
  rewrite (serve_raises str coerce client_id t rest w1 w1 (KeyError client_id)); [done|].
  rewrite (round_is_on_message _ _ _ _ _ _ Hin Hty). unfold on_message.
  returns_by ltac:(apply json_get_dict).
  erewrite bind_raises; [reflexivity|].
  unfold append_message, session, bind. simpl. by rewrite lookup_delete_eq.
Qed.

(** X12: a "message" frame whose [content] is [null] closes the
    connection, whether the client has a session or not: nothing is recorded
    and nothing is sent. *)
Theorem null_content_closes (str : exn -> string) (coerce : json -> option string)
    (client_id : string) (t : Turn) (d : list (string * json)) (rest : list Turn)
    (w : World) :
  inbound t = Text (Some (JDict d)) ->
  PyDict.get "type" d = Some (JStr "message") ->
  PyDict.get "content" d = Some JNull ->
  serve str coerce client_id (t :: rest) w =
    (mkWorld (PyDict.del client_id (active_connections w)) (chat_sessions w)
             (faults w) (sent w), Return Closed).
Proof.
  intros Hin Hty Hc.
  assert (Hround : exists e, round str coerce client_id t w = (w, Raised e)).
  { rewrite (round_is_on_message _ _ _ _ _ _ Hin Hty). unfold on_message.
    returns_by ltac:(apply json_get_dict). rewrite Hc. simpl default.
    unfold bind at 1, append_message, session, bind.
    destruct (chat_sessions w !! client_id); simpl; by eexists. }
  destruct Hround as [e Hround]. by rewrite (serve_raises _ _ _ _ _ _ _ _ Hround).
Qed.

(** ** A transport that fails *)

(** X13: when the socket registered for the client raises on [send_text],
    a "message" frame always closes the connection, in either mode and whatever
    the gateway does: the transport's exception is caught by the inner
    [except], which fails in turn to send the error frame, so the exception
    leaves the loop. Nothing is sent; the user's message, and whatever the
    handler appended before the send that failed, stay in the session. *)
Theorem dead_socket_closes (str : exn -> string) (coerce : json -> option string)
    (client_id : string) (websocket : WebSocket) (s : ChatSession) (t : Turn)
    (user_message : string) (streaming : bool) (e : exn) (rest : list Turn)
    (w : World) :
  PyDict.get client_id (active_connections w) = Some websocket ->
  faults w !! websocket = Some (0, e) ->
  chat_sessions w !! client_id = Some s ->
  message_request t user_message streaming ->
  exists w1 s',
    round str coerce client_id t w = (w1, Raised e) /\
    active_connections w1 = active_connections w /\
    faults w1 = faults w /\
    sent w1 = sent w /\
    chat_sessions w1 !! client_id = Some s' /\
    (messages s ++ [mkMessage "user" user_message]) `prefix_of` messages s' /\
    serve str coerce client_id (t :: rest) w =
      (mkWorld (PyDict.del client_id (active_connections w)) (chat_sessions w1)
               (faults w) (sent w), Return Closed).
Proof.
  intros Hreg Hdead Hs (d & Hin & Hty & Hc & Hst).
  set (w0 := with_sessions
               (insert client_id
                  (mkChatSession (id s) (messages s ++ [mkMessage "user" user_message])))
               w).
  assert (Hround : exists w1 s',
             round str coerce client_id t w = (w1, Raised e) /\
             active_connections w1 = active_connections w /\
             faults w1 = faults w /\ sent w1 = sent w /\
             chat_sessions w1 !! client_id = Some s' /\
             (messages s ++ [mkMessage "user" user_message]) `prefix_of` messages s').
  { rewrite (round_is_on_message _ _ _ _ _ _ Hin Hty). unfold on_message.
    returns_by ltac:(apply json_get_dict). rewrite Hc.
    returns_by ltac:(by apply append_message_str). fold w0.
    assert (Hs0 : chat_sessions w0 !! client_id =
                  Some (mkChatSession (id s)
                          (messages s ++ [mkMessage "user" user_message])))
      by apply lookup_insert_eq.
    unfold try_except.
    returns_by ltac:(apply json_get_dict). rewrite Hst.
    destruct streaming; cbn [negb].
    - returns_by ltac:(by apply session_found). cbn [messages].
      destruct (stream_ai_response str (create_stream t) _) as [|chunk next|e'];
        simpl stream_loop.
      + returns_by ltac:(reflexivity).
        returns_by ltac:(by apply append_message_str).
        rewrite send_message_dead with (websocket := websocket) (e := e) by done.
        rewrite send_message_dead with (websocket := websocket) (e := e) by done.
        eexists _, _. split; [reflexivity|]. simpl.
        do 3 (split; [done|]). split; [apply lookup_insert_eq|].
        simpl. by apply prefix_app_r.
      + raises_by ltac:(erewrite bind_raises;
                          [reflexivity|by apply send_message_dead with (websocket := websocket)]).
        rewrite send_message_dead with (websocket := websocket) (e := e) by done.
        eexists _, _. split; [reflexivity|].
        do 3 (split; [done|]). split; [exact Hs0|done].
      + raises_by ltac:(reflexivity).
        rewrite send_message_dead with (websocket := websocket) (e := e) by done.
        eexists _, _. split; [reflexivity|].
        do 3 (split; [done|]). split; [exact Hs0|done].
    - returns_by ltac:(by apply session_found). cbn [messages].
      unfold bind at 1, lift.
      destruct (get_ai_response str (create t) _) as [[response|]|e'].
      + returns_by ltac:(by apply append_message_str).
        rewrite send_message_dead with (websocket := websocket) (e := e) by done.
        rewrite send_message_dead with (websocket := websocket) (e := e) by done.
        eexists _, _. split; [reflexivity|]. simpl.
        do 3 (split; [done|]). split; [apply lookup_insert_eq|].
        simpl. by apply prefix_app_r.
      + rewrite (append_message_None _ _ _ _ _ Hs0).
        rewrite send_message_dead with (websocket := websocket) (e := e) by done.
        eexists _, _. split; [reflexivity|].
        do 3 (split; [done|]). split; [exact Hs0|done].
      + rewrite send_message_dead with (websocket := websocket) (e := e) by done.
        eexists _, _. split; [reflexivity|].
        do 3 (split; [done|]). split; [exact Hs0|done]. }
  destruct Hround as (w1 & s' & Hround & Hreg1 & Hf1 & Hsent1 & Hs1 & Hpre).
  exists w1, s'. repeat split; try done.
  rewrite (serve_raises _ _ _ _ _ _ _ _ Hround). by rewrite Hreg1, Hf1, Hsent1.
Qed.

(** ** What the provider is asked *)

(** X14: while handling a "message" frame the provider is consulted on one
    request only: the role and content of every message of the session, in
    order, followed by the user's new message. Replacing the provider by one
    that agrees with it on that request changes nothing in the round. *)
Theorem provider_is_asked_the_history (str : exn -> string)
    (coerce : json -> option string) (client_id : string) (s : ChatSession)
    (t : Turn) (user_message : string) (streaming : bool)
    (create' : list json -> Completion) (create_stream' : list json -> Stream)
    (w : World) :
  chat_sessions w !! client_id = Some s ->
  message_request t user_message streaming ->
  let request :=
    map (fun m => JDict [("role", JStr (role m)); ("content", JStr (content m))])
        (messages s ++ [mkMessage "user" user_message]) in
  create' request = create t request ->
  create_stream' request = create_stream t request ->
  round str coerce client_id
        (mkTurn (inbound t) create' create_stream' (time_start t) (time_end t)) w =
    round str coerce client_id t w.
Proof.
  intros Hs (d & Hin & Hty & Hc & Hst) request Hcreate Hstream.
  rewrite (round_is_on_message str coerce client_id t d w Hin Hty).
  rewrite (round_is_on_message str coerce client_id (mkTurn _ _ _ _ _) d w Hin Hty).
  unfold on_message, bind, try_except, json_get, ret, lift. cbv beta iota.
  rewrite Hc. rewrite (append_message_str coerce client_id "user" user_message w s Hs).
  cbv beta iota. rewrite Hst.
  set (w0 := with_sessions _ w).
  assert (Hs0 : session client_id w0 =
                (w0, Return (mkChatSession (id s)
                               (messages s ++ [mkMessage "user" user_message]))))
    by (apply session_found, lookup_insert_eq).
  destruct streaming; cbn [negb]; rewrite Hs0; cbv beta iota;
    cbn [messages create create_stream time_start time_end].
  - unfold stream_ai_response.
    change (map openai_message (messages s ++ [mkMessage "user" user_message]))
      with request.
    by rewrite Hstream.
  - unfold get_ai_response.
    change (map openai_message (messages s ++ [mkMessage "user" user_message]))
      with request.
    by rewrite Hcreate.
Qed.

(** ** A whole conversation *)

Lemma advance_connected client_id websocket s ms frames w :
  connected w client_id websocket s ->
  connected (advance client_id s ms websocket frames w) client_id websocket
    (mkChatSession (id s) (messages s ++ ms)).
Proof.
  intros (Hreg & Hok & Hs). repeat split; simpl; try done. apply lookup_insert_eq.
Qed.

Lemma answered_roles str history turns recorded frames :
  answered str history turns recorded frames ->
  map role recorded = concat (replicate (length turns) ["user"; "assistant"]).
Proof. induction 1; simpl; congruence. Qed.

Lemma serve_answered str coerce client_id websocket turns :
  forall s recorded frames w,
    connected w client_id websocket s ->
    answered str (messages s) turns recorded frames ->
    exists w',
      serve str coerce client_id turns w = (w', Return Open) /\
      connected w' client_id websocket (mkChatSession (id s) (messages s ++ recorded)) /\
      active_connections w' = active_connections w /\
      sent w' = sent w ++ to_socket websocket frames /\
      forall k, k <> client_id -> chat_sessions w' !! k = chat_sessions w !! k.
Proof.
  induction turns as [|t turns IH]; intros s recorded frames w Hopen Hans.
  - inversion Hans; subst. exists w. split; [done|].
    unfold to_socket. simpl. rewrite !app_nil_r. destruct s. simpl.
    split; [exact Hopen|done].
  - inversion Hans as [|? ? user_message response ? recorded' frames' Hreq Hgw Hrest
                       |? ? user_message ? recorded' frames' Hreq g Hend Hrest]; subst.
    + pose proof (round_atomic_returned str coerce _ _ _ _ _ _ _ Hopen Hreq Hgw)
        as Hround.
      rewrite (serve_step str coerce client_id t turns w _ Hround).
      match type of Hround with
      | _ = (advance _ _ ?ms _ ?fs _, _) =>
          destruct (IH (mkChatSession (id s) (messages s ++ ms)) recorded' frames' _
                      (advance_connected client_id websocket s ms fs w Hopen) Hrest)
            as (w' & Hserve & Hopen' & Hreg & Hsent & Hother)
      end.
      exists w'. split; [done|]. simpl in Hopen'. rewrite <- app_assoc in Hopen'.
      split; [done|]. split; [done|].
      split; [rewrite Hsent; simpl; by rewrite <- app_assoc|].
      intros k Hk. rewrite Hother by done. simpl. by apply lookup_insert_ne.
    + pose proof (round_stream str coerce _ _ _ _ _ _ Hopen Hreq) as Hround.
      simpl in Hround. fold g in Hround. rewrite Hend in Hround.
      rewrite (serve_step str coerce client_id t turns w _ Hround).
      match type of Hround with
      | _ = (advance _ _ ?ms _ ?fs _, _) =>
          destruct (IH (mkChatSession (id s) (messages s ++ ms)) recorded' frames' _
                      (advance_connected client_id websocket s ms fs w Hopen) Hrest)
            as (w' & Hserve & Hopen' & Hreg & Hsent & Hother)
      end.
      exists w'. split; [done|]. simpl in Hopen'. rewrite <- app_assoc in Hopen'.
      split; [done|]. split; [done|].
      split.
      * rewrite Hsent. simpl. unfold to_socket.
        rewrite !map_app. simpl. by rewrite <- !app_assoc.
      * intros k Hk. rewrite Hother by done. simpl. by apply lookup_insert_ne.
Qed.

(** X15: on an open connection, a sequence of "message" frames that the
    gateway answers one after the other (each in atomic or in streaming mode,
    each answer computed from the history the earlier turns left) leaves the
    connection open; the session then holds, after its earlier messages, one
    user message and one assistant message per frame, strictly alternating in
    arrival order, and the client's socket has received the answering frames
    of all turns in order. *)
Theorem conversation_is_interleaved (str : exn -> string)
    (coerce : json -> option string) (client_id : string) (websocket : WebSocket)
    (s : ChatSession) (turns : list Turn) (recorded : list Message)
    (frames : list json) (w : World) :
  connected w client_id websocket s ->
  answered str (messages s) turns recorded frames ->
  exists w',
    serve str coerce client_id turns w = (w', Return Open) /\
    chat_sessions w' !! client_id = Some (mkChatSession (id s) (messages s ++ recorded)) /\
    map role recorded = concat (replicate (length turns) ["user"; "assistant"]) /\
    sent w' = sent w ++ to_socket websocket frames /\
    active_connections w' = active_connections w.
Proof.
  intros Hopen Hans.
  destruct (serve_answered str coerce _ _ _ _ _ _ _ Hopen Hans)
    as (w' & Hserve & (_ & _ & Hs') & Hreg & Hsent & _).
  exists w'. repeat split; try done. by eapply answered_roles.
Qed.

(** ** The sentiment estimate *)

Lemma lower_char_idempotent c : Text.lower_char (Text.lower_char c) = Text.lower_char c.
Proof. by destruct c as [[] [] [] [] [] [] [] []]. Qed.

Lemma lower_idempotent text : Text.lower (Text.lower text) = Text.lower text.
Proof.
  induction text as [|c text IH]; simpl; [done|].
  by rewrite lower_char_idempotent, IH.
Qed.

Lemma count_contained_none words text :
  (forall word, word ∈ words -> ~ Text.Substring word text) ->
  Text.count_contained words text = 0.
Proof.
  induction words as [|word words IH]; intros Hnone; simpl; [done|].
  destruct (Text.contains word text) eqn:Hin.
  - destruct (Hnone word); [left|by apply contains_iff].
  - rewrite IH; [done|]. intros word' Hword'. apply Hnone. by right.
Qed.

Lemma count_contained_some words word text :
  word ∈ words -> Text.Substring word text -> 0 < Text.count_contained words text.
Proof.
  intros Hword Hsub. apply contains_iff in Hsub.
  induction Hword as [word words|word word' words Hword IH]; simpl.
  - rewrite Hsub. simpl. lia.
  - specialize (IH Hsub). destruct (Text.contains word' text); simpl; lia.
Qed.

(** X16: the estimate does not depend on the case of the letters: a text
    and its lower-case form get the same estimate. *)
Theorem estimate_sentiment_ignores_case (text : string) :
  estimate_sentiment (Text.lower text) = estimate_sentiment text.
Proof. unfold estimate_sentiment. by rewrite lower_idempotent. Qed.

(** X17: a text that contains none of the fifteen terms, in any case, is
    neutral; the empty text is. *)
Theorem estimate_sentiment_neutral_without_terms (text : string) :
  (forall word, word ∈ positive_words ++ negative_words ->
                ~ Text.Substring word (Text.lower text)) ->
  estimate_sentiment text = "neutral".
Proof.
  intros Hnone. unfold estimate_sentiment.
  rewrite !count_contained_none; [done| |];
    intros word Hword; apply Hnone, elem_of_app; auto.
Qed.

(** X18: containment is not aware of word boundaries and one side is
    enough: a text in which a positive term occurs anywhere, even inside a
    longer word, and no negative term does, is positive; and the other way
    round. *)
Theorem estimate_sentiment_one_sided (text word : string) :
  Text.Substring word (Text.lower text) ->
  (word ∈ positive_words ->
   (forall other, other ∈ negative_words -> ~ Text.Substring other (Text.lower text)) ->
   estimate_sentiment text = "positive") /\
  (word ∈ negative_words ->
   (forall other, other ∈ positive_words -> ~ Text.Substring other (Text.lower text)) ->
   estimate_sentiment text = "negative").
Proof.
  intros Hsub. split; intros Hword Hnone; unfold estimate_sentiment;
    pose proof (count_contained_some _ _ _ Hword Hsub) as Hpos;
    rewrite (count_contained_none _ _ Hnone) in *.
  - by destruct (Nat.ltb_spec 0 (Text.count_contained positive_words (Text.lower text)));
      [|lia].
  - destruct (Nat.ltb_spec (Text.count_contained negative_words (Text.lower text)) 0);
      [lia|].
    by destruct (Nat.ltb_spec 0 (Text.count_contained negative_words (Text.lower text)));
      [|lia].
Qed.

(** ** Answers that are not a text *)

(** X19: on an open connection, an atomic request on which the provider
    raises [e], or answers with no choice at all (the index error of
    [choices[0]]), is reported to the client as one error frame whose content
    is "Error: " followed by [str] of the 500 exception that wraps
    "Error calling AI service: " and [str(e)]; the user's message stays
    recorded without a reply and the round ends normally. *)
Theorem provider_failure_is_wrapped (str : exn -> string)
    (coerce : json -> option string) (client_id : string) (websocket : WebSocket)
    (s : ChatSession) (t : Turn) (user_message : string) (e : exn) (w : World) :
  connected w client_id websocket s ->
  message_request t user_message false ->
  let request :=
    map openai_message (messages s ++ [mkMessage "user" user_message]) in
  create t request = CreateRaises e \/ (create t request = Choices [] /\ e = IndexError) ->
  round str coerce client_id t w =
    (mkWorld (active_connections w)
             (<[client_id := mkChatSession (id s)
                  (messages s ++ [mkMessage "user" user_message])]> (chat_sessions w))
             (faults w)
             (sent w ++
              [(websocket,
                JDict [("type", JStr "error");
                       ("content",
                        JStr ("Error: " +:+
                              str (HTTPException 500
                                     ("Error calling AI service: " +:+ str e))))])]),
     Return tt).
Proof.
  intros Hopen Hreq request Hfail.
  apply round_atomic_raised; [done|done|].
  unfold get_ai_response. fold request.
  by destruct Hfail as [->|[-> ->]].
Qed.

(** X20: on an open connection, an atomic request whose first choice has
    no content ([None]) is not answered with a "message" frame: building the
    assistant message fails validation inside the [try], the client receives
    one error frame with [str] of the validation error, the user's message
    stays recorded without a reply, and the round ends normally. *)
Theorem empty_answer_is_an_error (str : exn -> string)
    (coerce : json -> option string) (client_id : string) (websocket : WebSocket)
    (s : ChatSession) (t : Turn) (user_message : string)
    (others : list (option string)) (w : World) :
  connected w client_id websocket s ->
  message_request t user_message false ->
  create t (map openai_message (messages s ++ [mkMessage "user" user_message])) =
    Choices (None :: others) ->
  round str coerce client_id t w =
    (mkWorld (active_connections w)
             (<[client_id := mkChatSession (id s)
                  (messages s ++ [mkMessage "user" user_message])]> (chat_sessions w))
             (faults w)
             (sent w ++
              [(websocket,
                JDict [("type", JStr "error");
                       ("content", JStr ("Error: " +:+ str ValidationError))])]),
     Return tt).
Proof.
  intros Hopen Hreq Hnone.
  apply round_atomic_no_text; [done|done|].
  unfold get_ai_response. by rewrite Hnone.
Qed.

(** ** The store's keys *)

(** X21: the store keeps every session under the identifier the session
    carries: this holds when the process starts and is preserved by the
    endpoint, whatever frames arrive, and by the deletion route; so the
    session the history route returns for an identifier carries that
    identifier. *)
Theorem sessions_stay_well_keyed (str : exn -> string) (coerce : json -> option string)
    (w : World) :
  well_keyed w ->
  (forall websocket client_id turns,
      well_keyed (websocket_endpoint str coerce websocket client_id turns w).1) /\
  (forall client_id, well_keyed (delete_chat_session client_id w).1) /\
  (forall client_id s, (get_chat_history client_id w).2 = Return s -> id s = client_id).
Proof.
  intros Hkeys. split; [|split].
  - intros websocket client_id turns.
    assert (Hstart : exists w0, well_keyed w0 /\
              websocket_endpoint str coerce websocket client_id turns w =
                serve str coerce client_id turns w0).
    { unfold websocket_endpoint, ConnectionManager.connect.
      unfold bind at 1, modify. unfold bind at 1, gets. simpl.
      destruct (chat_sessions w !! client_id) as [s|] eqn:Hs.
      - eexists. split; [|reflexivity]. exact Hkeys.
      - eexists. split; [|reflexivity]. intros k s. simpl.
        destruct (decide (client_id = k)) as [->|Hne].
        + rewrite lookup_insert_eq. by intros [= <-].
        + rewrite lookup_insert_ne by done. apply Hkeys. }
    destruct Hstart as (w0 & Hkeys0 & ->).
    pose proof (serve_after_loop str coerce client_id turns w0) as (Hs & _).
    pose proof (keeps_while_True str coerce client_id turns w0)
      as (_ & _ & Hother & Hown).
    intros k s. rewrite Hs.
    destruct (decide (k = client_id)) as [->|Hne].
    + destruct (chat_sessions w0 !! client_id) as [s0|] eqn:Hs0.
      * destruct Hown as (s' & Hs' & Hid & _). rewrite Hs'. intros [= <-].
        rewrite Hid. by apply Hkeys0.
      * by rewrite Hown.
    + rewrite Hother by done. apply Hkeys0.
  - intros client_id. destruct (delete_chat_session_world client_id w) as [-> _].
    intros k s. simpl. destruct (decide (client_id = k)) as [->|Hne].
    + by rewrite lookup_delete_eq.
    + rewrite lookup_delete_ne by done. apply Hkeys.
  - intros client_id s. unfold get_chat_history, session, bind, gets, raise.
    destruct (chat_sessions w !! client_id) as [s0|] eqn:Hs0; simpl; rewrite ?Hs0;
      [|done].
    intros [= <-]. by apply Hkeys.
Qed.

(** ** Samples for the further properties *)

Lemma serve_is_confined_sample :
  exists w' st,
    serve sample_str sample_coerce "abc"
          [sample_turn false (Choices [Some "hi there"]) (mkStream [] None)]
          sample_world = (w', Return st).
Proof.
  destruct (serve_is_confined sample_str sample_coerce "abc"
              [sample_turn false (Choices [Some "hi there"]) (mkStream [] None)]
              sample_world) as (w' & st & new & Hserve & _).
  by exists w', st.
Defined.

Lemma unregistered_client_is_sent_nothing_sample :
  sent (serve sample_str sample_coerce "abc"
          [sample_turn true (Choices []) (mkStream [[Some "hi"]] None)]
          sample_unregistered).1 = [].
Proof.
  exact (proj1 (unregistered_client_is_sent_nothing sample_str sample_coerce "abc"
                  sample_unregistered eq_refl)
           [sample_turn true (Choices []) (mkStream [[Some "hi"]] None)]).
Defined.

Lemma connect_registers_or_replaces_sample :
  PyDict.get "abc" (active_connections (ConnectionManager.connect 2 "abc" sample_world).1) =
    Some 2 /\
  length (active_connections (ConnectionManager.connect 2 "abc" sample_world).1) = 1.
Proof.
  destruct (connect_registers_or_replaces 2 "abc" sample_world)
    as (w' & Heq & Hget & _ & Hlen & _).
  rewrite Heq. by split.
Defined.

Lemma reconnection_redirects_frames_sample :
  bind (ConnectionManager.connect 2 "abc")
       (fun _ => ConnectionManager.send_message (JStr "notice") "abc") sample_world =
    (mkWorld [("abc", 2)] (chat_sessions sample_world) ∅ [(2, JStr "notice")],
     Return tt).
Proof.
  exact (reconnection_redirects_frames 2 "abc" (JStr "notice") sample_world
           (lookup_empty 2)).
Defined.

Lemma disconnect_undoes_connect_sample :
  bind (ConnectionManager.connect 1 "abc")
       (fun _ => ConnectionManager.disconnect "abc") (boot ∅) = (boot ∅, Return tt).
Proof. exact (proj1 (disconnect_undoes_connect 1 "abc" (boot ∅)) eq_refl). Defined.

Lemma endpoint_ensures_session_sample :
  exists w',
    websocket_endpoint sample_str sample_coerce 1 "abc" [] (boot ∅) = (w', Return Open) /\
    chat_sessions w' !! "abc" = Some (mkChatSession "abc" []).
Proof.
  destruct (endpoint_ensures_session sample_str sample_coerce 1 "abc" (boot ∅))
    as (w' & Hrun & _ & Hs & _).
  exists w'. by split.
Defined.

Lemma feedback_is_acknowledged_sample :
  round sample_str sample_coerce "abc"
        (sample_inbound
           (Text (Some (JDict [("type", JStr "feedback"); ("message_id", JInt 7);
                               ("rating", JInt 5)]))))
        sample_world =
    (mkWorld [("abc", 1)] (chat_sessions sample_world) ∅
             [(1, JDict [("type", JStr "feedback_received")])],
     Return tt).
Proof.
  exact (proj1 (feedback_is_acknowledged sample_str sample_coerce "abc" 1
                  (sample_inbound _)
                  [("type", JStr "feedback"); ("message_id", JInt 7); ("rating", JInt 5)]
                  sample_world eq_refl eq_refl eq_refl (lookup_empty 1))).
Defined.

Lemma unknown_type_is_ignored_sample :
  round sample_str sample_coerce "abc"
        (sample_inbound (Text (Some (JDict [("type", JStr "ping")])))) sample_world =
    (sample_world, Return tt).
Proof.
  exact (proj1 (unknown_type_is_ignored sample_str sample_coerce "abc"
                  (sample_inbound _) [("type", JStr "ping")] sample_world
                  eq_refl eq_refl eq_refl)).
Defined.

Lemma malformed_frame_closes_sample :
  serve sample_str sample_coerce "abc"
        [sample_inbound (Text None);
         sample_turn false (Choices [Some "hi there"]) (mkStream [] None)]
        sample_world =
    (mkWorld [] (chat_sessions sample_world) ∅ [], Return Closed).
Proof.
  exact (malformed_frame_closes sample_str sample_coerce "abc"
           (sample_inbound (Text None)) _ sample_world (or_introl eq_refl)).
Defined.

Lemma message_after_delete_closes_sample :
  serve sample_str sample_coerce "abc"
        [sample_turn false (Choices [Some "hi there"]) (mkStream [] None)]
        (delete_chat_session "abc" sample_world).1 =
    (mkWorld [] (delete "abc" (chat_sessions sample_world)) ∅ [], Return Closed).
Proof.
  exact (message_after_delete_closes sample_str sample_coerce "abc"
           (sample_turn false (Choices [Some "hi there"]) (mkStream [] None))
           [("type", JStr "message"); ("content", JStr "hello"); ("stream", JBool false)]
           [] sample_world eq_refl eq_refl).
Defined.

Lemma null_content_closes_sample :
  serve sample_str sample_coerce "abc"
        [sample_inbound
           (Text (Some (JDict [("type", JStr "message"); ("content", JNull)])))]
        sample_world =
    (mkWorld [] (chat_sessions sample_world) ∅ [], Return Closed).
Proof.
  exact (null_content_closes sample_str sample_coerce "abc" (sample_inbound _)
           [("type", JStr "message"); ("content", JNull)] []
           sample_world eq_refl eq_refl eq_refl).
Defined.

Lemma dead_socket_closes_sample :
  exists w',
    serve sample_str sample_coerce "abc"
          [sample_turn false (Choices [Some "hi there"]) (mkStream [] None)]
          sample_dead = (w', Return Closed) /\
    sent w' = [] /\
    active_connections w' = [].
Proof.
  destruct (dead_socket_closes sample_str sample_coerce "abc" 1
              (mkChatSession "abc" [])
              (sample_turn false (Choices [Some "hi there"]) (mkStream [] None))
              "hello" false WebSocketDisconnect [] sample_dead
              eq_refl (lookup_singleton_eq 1 (0, WebSocketDisconnect)) eq_refl
              (sample_turn_request _ _ _))
    as (w1 & s' & _ & _ & _ & _ & _ & _ & Hserve).
  eexists. split; [exact Hserve|]. by split.
Defined.

Lemma provider_is_asked_the_history_sample :
  round sample_str sample_coerce "abc"
        (mkTurn
           (inbound (sample_turn false (Choices [Some "hi there"]) (mkStream [] None)))
           (fun request =>
              match request with [_] => Choices [Some "hi there"] | _ => Choices [] end)
           (fun _ => mkStream [] None) 1%float 3%float)
        sample_world =
    round sample_str sample_coerce "abc"
          (sample_turn false (Choices [Some "hi there"]) (mkStream [] None))
          sample_world.
Proof.
  exact (provider_is_asked_the_history sample_str sample_coerce "abc"
           (mkChatSession "abc" [])
           (sample_turn false (Choices [Some "hi there"]) (mkStream [] None))
           "hello" false _ _ sample_world eq_refl (sample_turn_request _ _ _)
           eq_refl eq_refl).
Defined.

Lemma conversation_is_interleaved_sample :
  exists w',
    serve sample_str sample_coerce "abc"
          [sample_turn false (Choices [Some "hi there"]) (mkStream [] None);
           sample_turn true (Choices []) (mkStream [[Some "so"]; [Some " long"]] None)]
          sample_world = (w', Return Open) /\
    chat_sessions w' !! "abc" =
      Some (mkChatSession "abc"
              [mkMessage "user" "hello"; mkMessage "assistant" "hi there";
               mkMessage "user" "hello"; mkMessage "assistant" "so long"]).
Proof.
  edestruct (conversation_is_interleaved sample_str sample_coerce "abc" 1
               (mkChatSession "abc" [])
               [sample_turn false (Choices [Some "hi there"]) (mkStream [] None);
                sample_turn true (Choices [])
                  (mkStream [[Some "so"]; [Some " long"]] None)])
    as (w' & Hserve & Hs & _).
  - exact sample_world_connected.
  - eapply answered_atomic with (response := "hi there");
      [apply sample_turn_request|reflexivity|].
    eapply answered_stream; [apply sample_turn_request|reflexivity|].
    apply answered_none.
  - exists w'. split; [exact Hserve|]. rewrite Hs. reflexivity.
Defined.

Ltac no_term_in H Hsub :=
  apply contains_iff in Hsub;
  repeat (apply elem_of_cons in H as [->|H]; [discriminate Hsub|]);
  by apply elem_of_nil in H.

Lemma estimate_sentiment_neutral_without_terms_sample :
  estimate_sentiment "The sky is blue" = "neutral" /\ estimate_sentiment "" = "neutral".
Proof.
  split; apply estimate_sentiment_neutral_without_terms;
    intros word Hword Hsub; no_term_in Hword Hsub.
Defined.

Lemma estimate_sentiment_one_sided_sample :
  estimate_sentiment "An UNHAPPY customer" = "positive".
Proof.
  apply (proj1 (estimate_sentiment_one_sided "An UNHAPPY customer" "happy"
                  (ex_intro _ "an un" (ex_intro _ " customer" eq_refl)))).
  - left.
  - intros other Hother Hsub. no_term_in Hother Hsub.
Defined.

Lemma provider_failure_is_wrapped_sample :
  sent (round sample_str sample_coerce "abc"
          (sample_turn false (Choices []) (mkStream [] None)) sample_world).1 =
    [(1, error_frame "Error: Error calling AI service: error")].
Proof.
  rewrite (provider_failure_is_wrapped sample_str sample_coerce "abc" 1
             (mkChatSession "abc" [])
             (sample_turn false (Choices []) (mkStream [] None)) "hello" IndexError
             sample_world sample_world_connected (sample_turn_request _ _ _)
             (or_intror (conj eq_refl eq_refl))).
  reflexivity.
Defined.

Lemma empty_answer_is_an_error_sample :
  sent (round sample_str sample_coerce "abc"
          (sample_turn false (Choices [None]) (mkStream [] None)) sample_world).1 =
    [(1, error_frame "Error: error")].
Proof.
  rewrite (empty_answer_is_an_error sample_str sample_coerce "abc" 1
             (mkChatSession "abc" [])
             (sample_turn false (Choices [None]) (mkStream [] None)) "hello" []
             sample_world sample_world_connected (sample_turn_request _ _ _) eq_refl).
  reflexivity.
Defined.

Lemma sessions_stay_well_keyed_sample :
  well_keyed
    (websocket_endpoint sample_str sample_coerce 1 "abc"
       [sample_turn false (Choices [Some "hi there"]) (mkStream [] None)] (boot ∅)).1.
Proof.
  apply (sessions_stay_well_keyed sample_str sample_coerce (boot ∅)).
  intros k s Hs. simpl in Hs. by rewrite lookup_empty in Hs.
Defined.
